(** * SICAR: the captcha-gated download loop of [SICAR/sicar.py]

    A shallow embedding of the methods [_get], [_download_captcha],
    [_download_shapefile] and [download_state] of class [Sicar], together
    with the exception classes of [SICAR/exceptions.py].

    Python statements that touch the outside (the HTTP session, the random
    generator, the file system, [print], [time.sleep]) are modelled by a
    state-and-exception monad over a [world]; what the outside answers is
    given by an [environment] of oracles. Every effect is appended to a
    chronological trace so that the number of captcha acquisitions, of
    download requests and of sleeps of a run can be counted. *)

From Stdlib Require Import ZArith QArith Lia Ascii String DecimalString.
From stdpp Require Import base option list strings gmap.

Local Open Scope string_scope.
Local Open Scope list_scope.
Local Open Scope Z_scope.

(** ** Python values that reach the code *)

(** [state] is annotated [State | str] (and [str | int] further down), [type]
    defaults to [None]: the three shapes are kept apart. *)
Inductive pyvalue :=
| PyStr (s : string)
| PyInt (n : Z)
| PyNone.

(** What [download_state] hands back: a [Path], or the sentinel [False]. *)
Inductive pyresult :=
| PyPath (p : string)
| PyFalse.

(** A decoded [PIL.Image]. *)
Record image := Bitmap { pixels : list Byte.byte }.

(** ** Floats on the dyadic grid

    [random.random()] yields a double [k / 2^53] with [0 <= k < 2^53].  All
    floats the code computes from such draws are multiples of [2^-53]; a
    float is stored as that multiple.  Arithmetic rounds to 53 significant
    bits, ties to even, as IEEE-754 doubles do. *)
Record pyfloat := Float53 { numerator : Z }.

Definition float_value (x : pyfloat) : Q := numerator x # (2 ^ 53).

(** Round a non-negative multiple of [2^-53] to the nearest double. *)
Definition round53 (n : Z) : Z :=
  if n <? 2 ^ 53 then n
  else
    let s := Z.log2 n - 52 in
    let q := n / 2 ^ s in
    let r := n mod 2 ^ s in
    let half := 2 ^ (s - 1) in
    let q' := if r <? half then q
              else if half <? r then q + 1
              else if Z.even q then q else q + 1 in
    q' * 2 ^ s.

(** The float a raw 53-bit output [g] of the generator stands for. *)
Definition draw (g : Z) : pyfloat := Float53 (g mod 2 ^ 53).

(** [x + y] on floats. *)
Definition float_add (x y : pyfloat) : pyfloat :=
  Float53 (round53 (numerator x + numerator y)).

(** [x * m] for a float [x] and a non-negative integer constant [m]. *)
Definition float_mul (x : pyfloat) (m : Z) : pyfloat :=
  Float53 (round53 (numerator x * m)).

(** [int(x)] for a non-negative float. *)
Definition int_of_float (x : pyfloat) : Z := numerator x / 2 ^ 53.

(** ** Strings: [int(str)] and case-insensitive header names *)

Definition is_space (c : ascii) : bool :=
  let n := N_of_ascii c in ((9 <=? n) && (n <=? 13) || (n =? 32))%N.

Definition is_digit (c : ascii) : bool :=
  let n := N_of_ascii c in ((48 <=? n) && (n <=? 57))%N.

Definition digit_value (c : ascii) : Z := Z.of_N (N_of_ascii c) - 48.

Fixpoint lstrip (s : string) : string :=
  match s with
  | String c s' => if is_space c then lstrip s' else s
  | EmptyString => EmptyString
  end.

Fixpoint rstrip (s : string) : string :=
  match s with
  | String c s' =>
      match rstrip s' with
      | EmptyString => if is_space c then EmptyString else String c EmptyString
      | t => String c t
      end
  | EmptyString => EmptyString
  end.

(** Decimal digits, single underscores allowed between two digits. *)
Fixpoint digits (acc : Z) (after_digit : bool) (s : string) : option Z :=
  match s with
  | EmptyString => if after_digit then Some acc else None
  | String c s' =>
      if is_digit c then digits (10 * acc + digit_value c) true s'
      else if Ascii.eqb c "_" && after_digit then digits acc false s'
      else None
  end.

(** [int(s)] on a [str], base 10, ASCII grammar: surrounding whitespace, an
    optional sign, digits.  [None] stands for [ValueError]. *)
Definition int_of_str (s : string) : option Z :=
  match lstrip (rstrip s) with
  | String "+" t => digits 0 false t
  | String "-" t => Z.opp <$> digits 0 false t
  | t => digits 0 false t
  end.

Definition ascii_lower (c : ascii) : ascii :=
  let n := N_of_ascii c in
  if ((65 <=? n) && (n <=? 90))%N then ascii_of_N (n + 32) else c.

Fixpoint lower (s : string) : string :=
  match s with
  | String c s' => String (ascii_lower c) (lower s')
  | EmptyString => EmptyString
  end.

(** [content_type.startswith(p)]. *)
Definition startswith (s p : string) : bool := String.prefix p s.

(** ** HTTP *)

(** The two URLs the code builds, by their query parameters:
    [.../ReCaptcha?id=<id>] and
    [{_BASE}/estados/downloadBase?idEstado=..&tipoBase=..&ReCaptcha=..]. *)
Inductive request :=
| ReCaptcha (id : Z)
| DownloadBase (idEstado tipoBase : pyvalue) (captcha : string).

(** A [requests.Response].  [headers] is the case-insensitive dictionary,
    keyed by the lower-cased header name; [iter_content n] is the sequence of
    chunks the streaming iterator yields for chunk size [n]. *)
Record response := {
  ok : bool;
  headers : gmap string string;
  content : list Byte.byte;
  iter_content : Z -> list (list Byte.byte)
}.

(** [response.headers.get(name)]. *)
Definition headers_get (r : response) (name : string) : option string :=
  headers r !! lower name.

(** ** Exceptions ([SICAR/exceptions.py], and the two foreign ones the code
    meets) *)
Inductive exn :=
| EmailNotValidException (email : string)
| UrlNotOkException (url : request)
| StateCodeNotValidException (state : pyvalue)
| FailedToDownloadCaptchaException
| FailedToDownloadShapefileException
| FailedToDownloadCsvException
| UnidentifiedImageError
| ValueError.

(** The precondition errors of the package: malformed input of the caller. *)
Definition is_precondition_error (e : exn) : bool :=
  match e with
  | EmailNotValidException _ | StateCodeNotValidException _ => true
  | _ => false
  end.

(** ** Effects *)

(** What [print] is given when [debug] is set; [tries] is the budget at the
    time of printing, [info] the pair (state, output format). *)
Inductive message :=
| Requesting (tries : Z) (info : pyvalue * string) (captcha : string)
| InvalidCaptcha (tries : Z) (info : pyvalue * string) (captcha : string)
| WhenRequesting (tries : Z) (error : exn) (info : pyvalue * string).

Inductive event :=
| Mkdir (folder : string)
| Random (x : pyfloat)
| Get (url : request)
| Solve (img : image) (text : string)
| Open (path : string)
| Write (path : string) (chunk : list Byte.byte)
| Progress (n : Z)
| Print (m : message)
| Sleep (seconds : pyfloat).

(** The mutable part: files on disk, how many requests the session has sent,
    how many draws the generator has produced, the local variable [tries] of
    [download_state], and the trace of effects so far. *)
Record world := World {
  fs : gmap string (list Byte.byte);
  requests_sent : nat;
  draws_made : nat;
  tries : Z;
  trace : list event
}.

(** The outside. *)
Record environment := {
  (** the reply to the [n]-th GET of the session *)
  session_get : nat -> request -> response;
  (** the [n]-th raw output of the generator *)
  generator : nat -> Z;
  (** [Image.open(io.BytesIO(b))]; [None] is [UnidentifiedImageError] *)
  Image_open : list Byte.byte -> option image;
  (** [self._driver.get_captcha] *)
  get_captcha : image -> string;
  (** [Path(os.path.join(folder, f"SHAPE_{state}_{type}")).with_suffix(".zip")] *)
  shape_path : string -> pyvalue -> pyvalue -> string
}.

Inductive outcome (A : Type) :=
| Returned (a : A)
| Raised (e : exn).
Arguments Returned {A} a.
Arguments Raised {A} e.

Definition M (A : Type) : Type := world -> outcome A * world.

Definition ret {A} (a : A) : M A := fun w => (Returned a, w).

Definition raise {A} (e : exn) : M A := fun w => (Raised e, w).

Definition bind {A B} (c : M A) (k : A -> M B) : M B :=
  fun w =>
    match c w with
    | (Returned a, w') => k a w'
    | (Raised e, w') => (Raised e, w')
    end.

#[global] Instance M_ret : MRet M := @ret.
#[global] Instance M_bind : MBind M := fun A B k c => bind c k.

(** [try: c  except <classes> as e: h e].  [h e = None] when the class of [e]
    is not among the listed ones. *)
Definition try_except {A} (c : M A) (h : exn -> option (M A)) : M A :=
  fun w =>
    match c w with
    | (Returned a, w') => (Returned a, w')
    | (Raised e, w') =>
        match h e with
        | Some handler => handler w'
        | None => (Raised e, w')
        end
    end.

(** [try: c  finally: f].  The [finally] suite runs whatever [c] did; what [c]
    did (value or exception) then goes on, unless [f] itself raised. *)
Definition try_finally {A} (c : M A) (f : M unit) : M A :=
  fun w =>
    match c w with
    | (r, w') =>
        match f w' with
        | (Returned _, w'') => (r, w'')
        | (Raised e, w'') => (Raised e, w'')
        end
    end.

Definition emit (e : event) : M unit :=
  fun w => (Returned tt,
            World (fs w) (requests_sent w) (draws_made w) (tries w)
                  (trace w ++ [e])).

Definition get_tries : M Z := fun w => (Returned (tries w), w).

Definition set_tries (n : Z) : M unit :=
  fun w => (Returned tt,
            World (fs w) (requests_sent w) (draws_made w) n (trace w)).

Definition when (b : bool) (c : M unit) : M unit := if b then c else ret tt.

Section Sicar.

Variable env : environment.

(** [random.random()] *)
Definition random_random : M pyfloat :=
  fun w =>
    let x := draw (generator env (draws_made w)) in
    (Returned x,
     World (fs w) (requests_sent w) (S (draws_made w)) (tries w)
           (trace w ++ [Random x])).

(** [time.sleep(d)] *)
Definition time_sleep (d : pyfloat) : M unit := emit (Sleep d).

(** [print(m)] *)
Definition print (m : message) : M unit := emit (Print m).

(** [self._session.get(url, verify=False, ...)] *)
Definition _session_get (url : request) : M response :=
  fun w =>
    (Returned (session_get env (requests_sent w) url),
     World (fs w) (S (requests_sent w)) (draws_made w) (tries w)
           (trace w ++ [Get url])).

(** [Sicar._get] *)
Definition _get (url : request) : M response :=
  response ← _session_get url;
  if negb (ok response) then raise (UrlNotOkException url)
  else ret response.

(** [Image.open(io.BytesIO(b))] *)
Definition _Image_open (b : list Byte.byte) : M image :=
  match Image_open env b with
  | Some img => ret img
  | None => raise UnidentifiedImageError
  end.

(** [Sicar._download_captcha] *)
Definition _download_captcha : M image :=
  x ← random_random;
  let url := ReCaptcha (int_of_float (float_mul x 1000000)) in
  response ← _get url;
  if negb (ok response) then raise FailedToDownloadCaptchaException
  else
    try_except (_Image_open (content response))
      (fun error =>
         match error with
         | UnidentifiedImageError =>
             Some (raise FailedToDownloadCaptchaException)
         | _ => None
         end).

(** [int(response.headers.get("Content-Length", 0))] *)
Definition int_content_length (r : response) : M Z :=
  match headers_get r "Content-Length" with
  | None => ret 0
  | Some s =>
      match int_of_str s with
      | Some n => ret n
      | None => raise ValueError
      end
  end.

(** [open(path, "wb")]: the file is created, or truncated. *)
Definition open_wb (path : string) : M unit :=
  fun w => (Returned tt,
            World (<[path := []]> (fs w)) (requests_sent w) (draws_made w)
                  (tries w) (trace w ++ [Open path])).

(** [fd.write(chunk)] *)
Definition fd_write (path : string) (chunk : list Byte.byte) : M unit :=
  fun w => (Returned tt,
            World (alter (fun old => old ++ chunk) path (fs w))
                  (requests_sent w) (draws_made w) (tries w)
                  (trace w ++ [Write path chunk])).

(** [for chunk in ...: fd.write(chunk); progress_bar.update(len(chunk))] *)
Fixpoint write_chunks (path : string) (chunks : list (list Byte.byte))
  : M unit :=
  match chunks with
  | [] => ret tt
  | chunk :: rest =>
      fd_write path chunk;;
      emit (Progress (Z.of_nat (length chunk)));;
      write_chunks path rest
  end.

(** [Sicar._download_shapefile] *)
Definition _download_shapefile (state : pyvalue) (captcha : string)
    (type : pyvalue) (folder : string) (chunk_size : Z) : M string :=
  response ←
    try_except (_get (DownloadBase state type captcha))
      (fun error =>
         match error with
         | UrlNotOkException _ =>
             Some (raise FailedToDownloadShapefileException)
         | _ => None
         end);
  content_length ← int_content_length response;
  let content_type := default "" (headers_get response "Content-Type") in
  if (content_length =? 0)
     || negb (startswith content_type "application/zip")
  then raise FailedToDownloadShapefileException
  else
    let path := shape_path env folder state type in
    open_wb path;;
    write_chunks path (iter_content response chunk_size);;
    ret path.

(** The arguments of one call of [download_state] that the loop reads. *)
Record call := {
  state : pyvalue;
  output_format : string;
  folder : string;
  type : pyvalue;
  debug : bool;
  chunk_size : Z
}.

Definition info (c : call) : pyvalue * string := (state c, output_format c).

(** [self._driver.get_captcha(img)] *)
Definition driver_get_captcha (img : image) : M string :=
  let text := get_captcha env img in
  emit (Solve img text);; ret text.

(** The [try] suite of the loop.  [Some v]: the suite executed [return v];
    [None]: it ran to its end. *)
Definition try_suite (c : call) : M (option pyresult) :=
  img ← _download_captcha;
  captcha ← driver_get_captcha img;
  if (String.length captcha =? 5)%nat then
    t ← get_tries;
    when (debug c) (print (Requesting t (info c) captcha));;
    path ← _download_shapefile (state c) captcha (type c) (folder c)
              (chunk_size c);
    ret (Some (PyPath path))
  else
    t ← get_tries;
    when (debug c) (print (InvalidCaptcha t (info c) captcha));;
    ret None.

(** The [except (...) as error] clause. *)
Definition except_clause (c : call) (error : exn)
  : option (M (option pyresult)) :=
  match error with
  | FailedToDownloadCaptchaException
  | FailedToDownloadShapefileException
  | FailedToDownloadCsvException =>
      Some (t ← get_tries;
            when (debug c) (print (WhenRequesting t error (info c)));;
            ret None)
  | _ => None
  end.

(** The [finally] suite. *)
Definition finally_suite : M unit :=
  t ← get_tries;
  set_tries (t - 1);;
  x ← random_random;
  y ← random_random;
  time_sleep (float_add x y).

(** One pass through the body of the [while]. *)
Definition iteration (c : call) : M (option pyresult) :=
  try_finally (try_except (try_suite c) (except_clause c)) finally_suite.

(** [while tries > 0: ...] followed by [return False].  The loop is cut off
    by [fuel]; [None] means the fuel ran out before the loop ended. *)
Fixpoint while_tries (fuel : nat) (c : call) (w : world)
  : option (outcome pyresult * world) :=
  if 0 <? tries w then
    match fuel with
    | O => None
    | S fuel' =>
        match iteration c w with
        | (Returned (Some v), w') => Some (Returned v, w')
        | (Returned None, w') => while_tries fuel' c w'
        | (Raised e, w') => Some (Raised e, w')
        end
    end
  else Some (Returned PyFalse, w).

(** [Sicar.download_state].  The budget [n] itself is fuel enough. *)
Definition download_state (c : call) (n : Z) (w : world)
  : option (outcome pyresult * world) :=
  match (emit (Mkdir (folder c));; set_tries n) w with
  | (_, w') => while_tries (Z.to_nat n) c w'
  end.

End Sicar.

(** ** Reading a trace *)

(** A captcha acquisition: the GET of [_download_captcha]. *)
Definition is_acquisition (e : event) : bool :=
  match e with Get (ReCaptcha _) => true | _ => false end.

(** A fetch: the GET of [_download_shapefile]. *)
Definition is_fetch (e : event) : bool :=
  match e with Get (DownloadBase _ _ _) => true | _ => false end.

Definition is_network_call (e : event) : bool :=
  match e with Get _ => true | _ => false end.

Definition is_sleep (e : event) : bool :=
  match e with Sleep _ => true | _ => false end.

Definition is_open (e : event) : bool :=
  match e with Open _ => true | _ => false end.

Definition is_write (e : event) : bool :=
  match e with Write _ _ => true | _ => false end.

(** A call of the solver whose answer has the expected length. *)
Definition is_shaped_solve (e : event) : bool :=
  match e with
  | Solve _ text => (String.length text =? 5)%nat
  | _ => false
  end.

(** A fetch, if [e] is one, asks for the region [s]. *)
Definition fetch_for (s : pyvalue) (e : event) : Prop :=
  match e with
  | Get (DownloadBase idEstado _ _) => idEstado = s
  | _ => True
  end.

Definition occurrences (p : event -> bool) (evs : list event) : nat :=
  length (List.filter p evs).

(** The events of [write_chunks]. *)
Definition write_events (path : string) (chunks : list (list Byte.byte))
  : list event :=
  flat_map (fun chunk => [Write path chunk;
                          Progress (Z.of_nat (length chunk))]) chunks.

(** ** What the code sees of a reply *)

Definition content_length_absent (r : response) : Prop :=
  headers_get r "Content-Length" = None.

(** The header is there and [int] reads it as [n]. *)
Definition content_length_is (r : response) (n : Z) : Prop :=
  exists s, headers_get r "Content-Length" = Some s /\ int_of_str s = Some n.

Definition zip_content_type (r : response) : bool :=
  startswith (default "" (headers_get r "Content-Type")) "application/zip".

Section Observations.

Variable env : environment.

(** The URL [_download_captcha] asks for in world [w], and the reply. *)
Definition captcha_url (w : world) : request :=
  ReCaptcha
    (int_of_float (float_mul (draw (generator env (draws_made w))) 1000000)).

Definition captcha_response (w : world) : response :=
  session_get env (requests_sent w) (captcha_url w).

(** The reply [_download_shapefile] gets in world [w]. *)
Definition download_response (w : world) (state : pyvalue) (captcha : string)
    (type : pyvalue) : response :=
  session_get env (requests_sent w) (DownloadBase state type captcha).

End Observations.

(** ** What one attempt, and a whole run of the loop, leave behind

    [evs] are the events appended to the trace between [w] and [w']. *)

Record attempt_facts (c : call) (w : world)
    (r : outcome (option pyresult)) (w' : world) (evs : list event)
  : Prop := {
  at_trace : trace w' = trace w ++ evs;
  at_tries : tries w' = tries w - 1;
  at_acquisition : occurrences is_acquisition evs = 1%nat;
  at_sleep : occurrences is_sleep evs = 1%nat;
  at_last : exists evs0 d, evs = evs0 ++ [Sleep d];
  at_fetch : occurrences is_fetch evs = occurrences is_shaped_solve evs;
  at_region : Forall (fetch_for (state c)) evs;
  at_return : forall v, r = Returned (Some v) ->
                exists p, v = PyPath p /\ occurrences is_fetch evs = 1%nat;
  at_raise : forall e, r = Raised e -> is_precondition_error e = false
}.

Record loop_facts (c : call) (w : world)
    (r : outcome pyresult) (w' : world) (evs : list event)
  : Prop := {
  lp_trace : trace w' = trace w ++ evs;
  lp_tries : tries w' = tries w - Z.of_nat (occurrences is_acquisition evs);
  lp_bound : (occurrences is_acquisition evs <= Z.to_nat (tries w))%nat;
  lp_first : 0 < tries w -> (1 <= occurrences is_acquisition evs)%nat;
  lp_sleep : occurrences is_sleep evs = occurrences is_acquisition evs;
  lp_idle : occurrences is_acquisition evs = 0%nat -> evs = [];
  lp_last : (0 < occurrences is_acquisition evs)%nat ->
            exists evs0 d, evs = evs0 ++ [Sleep d];
  lp_fetch : occurrences is_fetch evs = occurrences is_shaped_solve evs;
  lp_region : Forall (fetch_for (state c)) evs;
  lp_false : r = Returned PyFalse ->
             occurrences is_acquisition evs = Z.to_nat (tries w);
  lp_raise : forall e, r = Raised e -> is_precondition_error e = false
}.

(** A whole call [download_state c n] from world [w]. *)
Record run_facts (c : call) (n : Z) (w : world)
    (r : outcome pyresult) (w' : world) (evs : list event)
  : Prop := {
  rn_trace : trace w' = trace w ++ evs;
  rn_mkdir : exists evs', evs = Mkdir (folder c) :: evs';
  rn_tries : tries w' = n - Z.of_nat (occurrences is_acquisition evs);
  rn_bound : (occurrences is_acquisition evs <= Z.to_nat n)%nat;
  rn_first : 0 < n -> (1 <= occurrences is_acquisition evs)%nat;
  rn_sleep : occurrences is_sleep evs = occurrences is_acquisition evs;
  rn_last : (0 < occurrences is_acquisition evs)%nat ->
            exists evs0 d, evs = evs0 ++ [Sleep d];
  rn_fetch : occurrences is_fetch evs = occurrences is_shaped_solve evs;
  rn_region : Forall (fetch_for (state c)) evs;
  rn_false : r = Returned PyFalse ->
             occurrences is_acquisition evs = Z.to_nat n;
  rn_raise : forall e, r = Raised e -> is_precondition_error e = false
}.

(** ** Concrete surroundings, for running the model *)

Module Examples.

(** [str(v)] as an f-string renders it. *)
Definition py_str (v : pyvalue) : string :=
  match v with
  | PyStr s => s
  | PyInt n => NilZero.string_of_int (Z.to_int n)
  | PyNone => "None"
  end.

(** The artifact path when neither name contains a dot or a slash. *)
Definition plain_shape_path (folder : string) (state type : pyvalue)
  : string :=
  folder +:+ "/SHAPE_" +:+ py_str state +:+ "_" +:+ py_str type +:+ ".zip".

Definition png : list Byte.byte := [Byte.x89; Byte.x50; Byte.x4e; Byte.x47].

(** The captcha image, served with status 200. *)
Definition captcha_reply : response :=
  {| ok := true; headers := {[ "content-type" := "image/png" ]};
     content := png; iter_content := fun _ => [png] |}.

(** Status 503. *)
Definition unavailable : response :=
  {| ok := false; headers := ∅; content := []; iter_content := fun _ => [] |}.

(** The archive, served in two chunks. *)
Definition zip_reply : response :=
  {| ok := true;
     headers := {[ "content-length" := "4";
                   "content-type" := "application/zip" ]};
     content := [];
     iter_content := fun _ => [[Byte.x50; Byte.x4b]; [Byte.x03; Byte.x04]] |}.

(** The error page that comes with status 200 when the captcha is refused. *)
Definition rejection : response :=
  {| ok := true;
     headers := {[ "content-length" := "0";
                   "content-type" := "text/html" ]};
     content := []; iter_content := fun _ => [] |}.

(** A reply whose Content-Length is not a number. *)
Definition garbled : response :=
  {| ok := true;
     headers := {[ "content-length" := "abc";
                   "content-type" := "text/html" ]};
     content := []; iter_content := fun _ => [] |}.

Definition serve (captcha download : response) (n : nat) (url : request)
  : response :=
  match url with
  | ReCaptcha _ => captcha
  | DownloadBase _ _ _ => download
  end.

Definition surroundings (captcha download : response) (text : string)
  (gen : nat -> Z) : environment :=
  {| session_get := serve captcha download;
     generator := gen;
     Image_open := fun b => Some (Bitmap b);
     get_captcha := fun _ => text;
     shape_path := plain_shape_path |}.

(** Everything works and the solver reads five characters. *)
Definition fair_weather : environment :=
  surroundings captcha_reply zip_reply "7G3K9"
    (fun n => 2 ^ 52 + 1000 * Z.of_nat n).

(** The captcha endpoint answers 503. *)
Definition captcha_down : environment :=
  surroundings unavailable zip_reply "7G3K9"
    (fun n => 2 ^ 52 + 1000 * Z.of_nat n).

(** The remote system refuses every solution. *)
Definition always_rejected : environment :=
  surroundings captcha_reply rejection "7G3K9"
    (fun n => 2 ^ 52 + 1000 * Z.of_nat n).

(** The solver reads four characters only. *)
Definition short_sighted : environment :=
  surroundings captcha_reply zip_reply "AB12"
    (fun n => 2 ^ 52 + 1000 * Z.of_nat n).

(** The generator is stuck at 0. *)
Definition stuck_generator : environment :=
  surroundings captcha_reply zip_reply "7G3K9" (fun _ => 0).

Definition start : world :=
  World ∅ 0 0 0 [].

Definition sp_call : call :=
  {| state := PyStr "SP"; output_format := "shapefile"; folder := "temp";
     type := PyStr "AREA_IMOVEL"; debug := true; chunk_size := 1024 |}.

(** [XX] is the abbreviation of no Brazilian state. *)
Definition xx_call : call :=
  {| state := PyStr "XX"; output_format := "shapefile"; folder := "temp";
     type := PyStr "AREA_IMOVEL"; debug := false; chunk_size := 1024 |}.

End Examples.

(** ** Further readings of a run *)

Definition is_solve (e : event) : bool :=
  match e with Solve _ _ => true | _ => false end.

Definition is_print (e : event) : bool :=
  match e with Print _ => true | _ => false end.

(** A trace without what [print] left in it. *)
Definition quiet (evs : list event) : list event :=
  List.filter (fun e => negb (is_print e)) evs.

(** A reply that passes the three checks of [_download_shapefile]. *)
Definition accepted (r : response) : Prop :=
  ok r = true
  /\ zip_content_type r = true
  /\ exists n, content_length_is r n /\ n <> 0.

(** A reply that fails one of them. *)
Definition rejected (r : response) : Prop :=
  ok r = false
  \/ content_length_absent r
  \/ content_length_is r 0
  \/ ((exists n, content_length_is r n) /\ zip_content_type r = false).

(** A reply with a success status and a Content-Length [int] cannot read. *)
Definition garbled_length (r : response) : Prop :=
  ok r = true
  /\ exists str,
       headers_get r "Content-Length" = Some str /\ int_of_str str = None.

(** A sleep, if [e] is one, lasts at least 0 and less than 2 seconds. *)
Definition sleep_in_range (e : event) : Prop :=
  match e with
  | Sleep d => (0 <= float_value d)%Q /\ (float_value d < 2)%Q
  | _ => True
  end.

(** The time slept over a trace, in units of [2^-53] second, and in
    seconds. *)
Fixpoint sleep_units (evs : list event) : Z :=
  match evs with
  | [] => 0
  | Sleep d :: rest => numerator d + sleep_units rest
  | _ :: rest => sleep_units rest
  end.

Definition total_sleep (evs : list event) : Q := sleep_units evs # (2 ^ 53).

(** A captcha request, if [e] is one, carries an id of at most six digits. *)
Definition captcha_id_in_range (e : event) : Prop :=
  match e with
  | Get (ReCaptcha id) => 0 <= id < 1000000
  | _ => True
  end.

(** Two worlds that differ in their traces at most. *)
Definition same_core (w1 w2 : world) : Prop :=
  fs w1 = fs w2
  /\ requests_sent w1 = requests_sent w2
  /\ draws_made w1 = draws_made w2
  /\ tries w1 = tries w2.

(** The call [c] with its [debug] argument set to [b]. *)
Definition with_debug (b : bool) (c : call) : call :=
  {| state := state c; output_format := output_format c;
     folder := folder c; type := type c; debug := b;
     chunk_size := chunk_size c |}.

Section Endings.

Variable env : environment.
Variable c : call.

(** The path the call writes to. *)
Definition artifact : string :=
  shape_path env (folder c) (state c) (type c).

(** The reply to the [k]-th request of the session, when that request is the
    download request of the call made with the solution [cap]. *)
Definition download_reply (k : nat) (cap : string) : response :=
  session_get env k (DownloadBase (state c) (type c) cap).

(** A call of the solver, if [e] is one, was made on an image decoded from a
    captcha reply, and the text is what the driver read in it. *)
Definition solved_by (e : event) : Prop :=
  match e with
  | Solve img text =>
      text = get_captcha env img
      /\ exists k id,
           Image_open env (content (session_get env k (ReCaptcha id)))
           = Some img
  | _ => True
  end.

(** The four ways out of [download_state]. *)
Inductive ending : outcome pyresult -> Prop :=
| exhausted :
    ending (Returned PyFalse)
| downloaded k cap :
    accepted (download_reply k cap) ->
    ending (Returned (PyPath artifact))
| captcha_unreachable k id :
    ok (session_get env k (ReCaptcha id)) = false ->
    ending (Raised (UrlNotOkException (ReCaptcha id)))
| length_unreadable k cap :
    garbled_length (download_reply k cap) ->
    ending (Raised ValueError).

(** What one pass through the loop body does to the files, and how it can
    end. *)
Record attempt_ledger (w : world) (r : outcome (option pyresult))
    (w' : world) (evs : list event) : Prop := {
  al_trace : trace w' = trace w ++ evs;
  al_end : match r with
           | Returned None => True
           | Returned (Some v) => v = PyPath artifact /\ ending (Returned v)
           | Raised e => ending (Raised e)
           end;
  al_files : match r with
             | Returned (Some _) =>
                 exists k cap,
                   accepted (download_reply k cap)
                   /\ fs w' = <[artifact :=
                                  concat (iter_content (download_reply k cap)
                                            (chunk_size c))]> (fs w)
                   /\ occurrences is_open evs = 1%nat
             | _ =>
                 fs w' = fs w
                 /\ occurrences is_open evs = 0%nat
                 /\ occurrences is_write evs = 0%nat
             end;
  al_fetched : match r with
               | Returned (Some _) | Raised ValueError =>
                   (1 <= occurrences is_fetch evs)%nat
               | _ => True
               end;
  al_sleeps : Forall sleep_in_range evs;
  al_units : 0 <= sleep_units evs < 2 ^ 54;
  al_solved : Forall solved_by evs;
  al_solves : (occurrences is_solve evs <= 1)%nat;
  al_ids : Forall captcha_id_in_range evs
}.

(** The same for a whole run of the loop. *)
Record run_ledger (w : world) (r : outcome pyresult)
    (w' : world) (evs : list event) : Prop := {
  rl_trace : trace w' = trace w ++ evs;
  rl_end : ending r;
  rl_files : match r with
             | Returned (PyPath _) =>
                 exists k cap,
                   accepted (download_reply k cap)
                   /\ fs w' = <[artifact :=
                                  concat (iter_content (download_reply k cap)
                                            (chunk_size c))]> (fs w)
                   /\ occurrences is_open evs = 1%nat
             | _ =>
                 fs w' = fs w
                 /\ occurrences is_open evs = 0%nat
                 /\ occurrences is_write evs = 0%nat
             end;
  rl_fetched : match r with
               | Returned (PyPath _) | Raised ValueError =>
                   (1 <= occurrences is_fetch evs)%nat
               | _ => True
               end;
  rl_sleeps : Forall sleep_in_range evs;
  rl_units : 0 <= sleep_units evs
             <= (2 ^ 54 - 1) * Z.of_nat (occurrences is_acquisition evs);
  rl_solved : Forall solved_by evs;
  rl_solves : (occurrences is_solve evs
               <= occurrences is_acquisition evs)%nat;
  rl_ids : Forall captcha_id_in_range evs
}.

End Endings.

(** ** The solver, followed along a trace *)

Section Reading.

Variable env : environment.

(** What a reader of the trace keeps in mind: how many requests the session
    has sent; the reply to the captcha request of the attempt under way, as
    long as the solver has not been called on it; the text the solver has
    returned in the attempt under way, as long as no download request has
    been sent with it. *)
Record reader := Reader {
  sent : nat;
  unsolved : option response;
  solution : option string
}.

Definition read (v : reader) (e : event) : reader :=
  match e with
  | Get (ReCaptcha id) =>
      Reader (S (sent v)) (Some (session_get env (sent v) (ReCaptcha id)))
             None
  | Get (DownloadBase _ _ _) => Reader (S (sent v)) None None
  | Solve _ text => Reader (sent v) None (Some text)
  | _ => v
  end.

(** What the reader expects of the next event.  A call of the solver is made
    on the image decoded from the content of the reply to the captcha
    request of the same attempt, on which the solver was not called before,
    and its text is what the driver returns for that image.  A download
    request, and a print that quotes a captcha, carry the text of the solver
    call of the same attempt; the download request is sent for a text of
    length 5 only. *)
Definition allowed (v : reader) (e : event) : Prop :=
  match e with
  | Solve img text =>
      (exists reply,
         unsolved v = Some reply
         /\ Image_open env (content reply) = Some img)
      /\ text = get_captcha env img
  | Get (DownloadBase _ _ captcha) =>
      solution v = Some captcha /\ (String.length captcha =? 5)%nat = true
  | Print (Requesting _ _ captcha) | Print (InvalidCaptcha _ _ captcha) =>
      solution v = Some captcha
  | _ => True
  end.

Fixpoint disciplined (v : reader) (evs : list event) : Prop :=
  match evs with
  | [] => True
  | e :: rest => allowed v e /\ disciplined (read v e) rest
  end.

End Reading.

(** ** The exception classes, as [SICAR/exceptions.py] declares them

    Each class passes one message to [Exception.__init__]; three of them keep
    the offending value in an attribute. *)

Module Exceptions.

Inductive exception :=
| EmailNotValidException (email : string)
| UrlNotOkException (url : string)
| StateCodeNotValidException (state : string)
| FailedToDownloadCaptchaException
| FailedToDownloadShapefileException
| FailedToDownloadCsvException.

(** [str(e)]: the argument of [super().__init__]. *)
Definition message (e : exception) : string :=
  match e with
  | EmailNotValidException email => "Email " +:+ email +:+ " not valid!"
  | UrlNotOkException url => "Oh no! Failed to access " +:+ url +:+ "!"
  | StateCodeNotValidException state =>
      "State code " +:+ state +:+ " not valid!"
  | FailedToDownloadCaptchaException => "Failed to download captcha!"
  | FailedToDownloadShapefileException => "Failed to download shapefile!"
  | FailedToDownloadCsvException => "Failed to download CSV!"
  end.

End Exceptions.

(** ** More surroundings *)

Module Scenarios.

(** The captcha endpoint answers with a page of text, status 200. *)
Definition page : list Byte.byte :=
  [Byte.x3c; Byte.x68; Byte.x74; Byte.x6d; Byte.x6c; Byte.x3e].

Definition page_reply : response :=
  {| ok := true; headers := {[ "content-type" := "text/html" ]};
     content := page; iter_content := fun _ => [page] |}.

(** A decoder that takes what starts with the PNG signature and nothing
    else. *)
Definition open_png (b : list Byte.byte) : option image :=
  match b with
  | Byte.x89 :: Byte.x50 :: Byte.x4e :: Byte.x47 :: _ => Some (Bitmap b)
  | _ => None
  end.

(** Captchas are asked for and answered, but no answer is an image: the
    decoder reads PNG files and is fed pages of text. *)
Definition no_image : environment :=
  {| session_get := Examples.serve page_reply Examples.zip_reply;
     generator := fun n => 2 ^ 52 + 1000 * Z.of_nat n;
     Image_open := open_png;
     get_captcha := fun _ => "7G3K9";
     shape_path := Examples.plain_shape_path |}.

(** The archive, announced by two Content-Length lines that reach the code
    as one header value. *)
Definition folded_length : response :=
  {| ok := true;
     headers := {[ "content-length" := "4, 4";
                   "content-type" := "application/zip" ]};
     content := [];
     iter_content := fun _ => [[Byte.x50; Byte.x4b]; [Byte.x03; Byte.x04]] |}.

Definition twice_announced : environment :=
  Examples.surroundings Examples.captcha_reply folded_length "7G3K9"
    (fun n => 2 ^ 52 + 1000 * Z.of_nat n).

(** The download endpoint answers with a Content-Length that is no number. *)
Definition not_a_number : environment :=
  Examples.surroundings Examples.captcha_reply Examples.garbled "7G3K9"
    (fun n => 2 ^ 52 + 1000 * Z.of_nat n).

End Scenarios.

(** * Properties *)

(** ** Counting in traces *)

Lemma occurrences_app p (l1 l2 : list event) :
  occurrences p (l1 ++ l2) = (occurrences p l1 + occurrences p l2)%nat.
Proof.
  unfold occurrences. rewrite List.filter_app, length_app. reflexivity.
Qed.

Lemma occurrences_nil p : occurrences p [] = 0%nat.
Proof. reflexivity. Qed.

Lemma occurrences_cons p e (l : list event) :
  occurrences p (e :: l) = ((if p e then 1 else 0) + occurrences p l)%nat.
Proof. unfold occurrences. simpl. destruct (p e); reflexivity. Qed.

Lemma occurrences_write_events p path chunks :
  p (Progress 0) = false ->
  (forall n, p (Progress n) = p (Progress 0)) ->
  (forall ch, p (Write path ch) = false) ->
  occurrences p (write_events path chunks) = 0%nat.
Proof.
  intros Hp0 Hp Hw. unfold occurrences.
  induction chunks as [|ch chunks IH]; simpl; [reflexivity|].
  rewrite Hw, Hp, Hp0. exact IH.
Qed.

Lemma fetch_for_write_events s path chunks :
  Forall (fetch_for s) (write_events path chunks).
Proof.
  induction chunks as [|ch chunks IH]; simpl.
  - constructor.
  - repeat constructor; assumption.
Qed.

(** ** The float operations *)

Lemma draw_range g : 0 <= numerator (draw g) < 2 ^ 53.
Proof. unfold draw; simpl. apply Z.mod_pos_bound. reflexivity. Qed.

Lemma round53_small n : n < 2 ^ 53 -> round53 n = n.
Proof.
  intros H. unfold round53.
  destruct (Z.ltb_spec n (2 ^ 53)); [reflexivity | lia].
Qed.

(** Between 1 and 2 the doubles are the even multiples of [2^-53]; an odd
    multiple lies half-way and goes to the neighbour with even mantissa. *)
Lemma round53_binade n :
  2 ^ 53 <= n < 2 ^ 54 ->
  round53 n =
    if Z.even n then n
    else if Z.even (n / 2) then n - 1 else n + 1.
Proof.
  intros [Hlo Hhi]. unfold round53.
  destruct (Z.ltb_spec n (2 ^ 53)) as [Hlt|_]; [lia|].
  assert (Hlog : Z.log2 n = 53).
  { apply Z.log2_unique; [lia|]. split; [exact Hlo|exact Hhi]. }
  rewrite Hlog. change (53 - 52) with 1. change (2 ^ (1 - 1)) with 1.
  change (2 ^ 1) with 2.
  pose proof (Z.mod_pos_bound n 2 ltac:(lia)) as Hr.
  pose proof (Z.div_mod n 2 ltac:(lia)) as Hdm.
  assert (Hev : Z.even n = (n mod 2 =? 0)).
  { rewrite Zeven_mod. reflexivity. }
  rewrite Hev.
  destruct (Z.eqb_spec (n mod 2) 0) as [H0|H1].
  - rewrite H0. simpl. lia.
  - assert (n mod 2 = 1) as -> by lia. simpl.
    destruct (Z.even (n / 2)); lia.
Qed.

(** ** The methods, case by case *)

(** Unfold the monad and the one-line primitives. *)
Ltac run :=
  cbv [mbind M_bind bind mret M_ret ret raise try_except try_finally emit
       when print time_sleep get_tries set_tries random_random _session_get
       _get _Image_open driver_get_captcha open_wb int_content_length];
  cbn [fs requests_sent draws_made tries trace fst snd negb].

(** Count events of one kind in a trace built by appending. *)
Ltac tally :=
  rewrite ?occurrences_app, ?occurrences_cons, ?occurrences_write_events,
    ?occurrences_nil by reflexivity;
  cbn [is_acquisition is_sleep is_fetch is_shaped_solve Nat.add];
  try match goal with
      | H : (String.length _ =? 5)%nat = _ |- _ => rewrite H
      end;
  reflexivity.

Section Methods.

Variable env : environment.

(** [_download_captcha]: one draw, one GET; the status is looked at by [_get]
    first. *)
Lemma _download_captcha_eq w :
  _download_captcha env w =
    let w1 := World (fs w) (S (requests_sent w)) (S (draws_made w)) (tries w)
                (trace w ++ [Random (draw (generator env (draws_made w)));
                             Get (captcha_url env w)]) in
    if ok (captcha_response env w) then
      match Image_open env (content (captcha_response env w)) with
      | Some img => (Returned img, w1)
      | None => (Raised FailedToDownloadCaptchaException, w1)
      end
    else (Raised (UrlNotOkException (captcha_url env w)), w1).
Proof.
  unfold _download_captcha, captcha_response, captcha_url. run.
  destruct (ok _) eqn:Hok; cbn [negb].
  - rewrite Hok; cbn [negb].
    destruct (Image_open env _); rewrite <- app_assoc; reflexivity.
  - rewrite <- app_assoc; reflexivity.
Qed.

Lemma write_chunks_eq path chunks w :
  write_chunks path chunks w =
    (Returned tt,
     World (foldl (fun m chunk => alter (fun old => old ++ chunk) path m)
                  (fs w) chunks)
           (requests_sent w) (draws_made w) (tries w)
           (trace w ++ write_events path chunks)).
Proof.
  revert w. induction chunks as [|chunk chunks IH]; intros w.
  - simpl. unfold mret, M_ret, ret. rewrite app_nil_r. destruct w; reflexivity.
  - cbn [write_chunks]. run. unfold fd_write. rewrite IH.
    cbn [fs requests_sent draws_made tries trace foldl write_events flat_map].
    rewrite <- !app_assoc. reflexivity.
Qed.

(** Writing chunk after chunk to a file just opened leaves their
    concatenation in it. *)
Lemma foldl_write path (chunks : list (list Byte.byte)) acc
    (m : gmap string (list Byte.byte)) :
  foldl (fun m chunk => alter (fun old => old ++ chunk) path m)
        (<[path := acc]> m) chunks
  = <[path := acc ++ concat chunks]> m.
Proof.
  revert acc. induction chunks as [|chunk chunks IH]; intros acc; simpl.
  - rewrite app_nil_r. reflexivity.
  - rewrite alter_insert_eq, IH, <- app_assoc. reflexivity.
Qed.

(** [_download_shapefile]: one GET, then the three checks, then the file. *)
Lemma _download_shapefile_eq s cap t fld cs w :
  _download_shapefile env s cap t fld cs w =
    let r := download_response env w s cap t in
    let url := DownloadBase s t cap in
    let path := shape_path env fld s t in
    let w1 := World (fs w) (S (requests_sent w)) (draws_made w) (tries w)
                (trace w ++ [Get url]) in
    let w2 := World (<[path := concat (iter_content r cs)]> (fs w))
                (S (requests_sent w)) (draws_made w) (tries w)
                (trace w ++ Get url :: Open path
                   :: write_events path (iter_content r cs)) in
    if ok r then
      match headers_get r "Content-Length" with
      | Some str =>
          match int_of_str str with
          | Some n =>
              if (n =? 0) || negb (zip_content_type r)
              then (Raised FailedToDownloadShapefileException, w1)
              else (Returned path, w2)
          | None => (Raised ValueError, w1)
          end
      | None => (Raised FailedToDownloadShapefileException, w1)
      end
    else (Raised FailedToDownloadShapefileException, w1).
Proof.
  unfold _download_shapefile, download_response, zip_content_type. run.
  destruct (ok _) eqn:Hok; cbn [negb]; [|reflexivity].
  destruct (headers_get _ "Content-Length") as [str|]; [|reflexivity].
  destruct (int_of_str str) as [n|]; [|reflexivity].
  destruct ((n =? 0) || _); [reflexivity|].
  rewrite write_chunks_eq.
  cbn [fs requests_sent draws_made tries trace].
  rewrite foldl_write, <- !app_assoc. reflexivity.
Qed.

Lemma finally_suite_eq w :
  finally_suite env w =
    let x := draw (generator env (draws_made w)) in
    let y := draw (generator env (S (draws_made w))) in
    (Returned tt,
     World (fs w) (requests_sent w) (S (S (draws_made w))) (tries w - 1)
           (trace w ++ [Random x; Random y; Sleep (float_add x y)])).
Proof.
  unfold finally_suite. run. rewrite <- !app_assoc. reflexivity.
Qed.

Lemma ends_in_sleep (evs l : list event) x y d :
  evs = l ++ [Random x; Random y; Sleep d] ->
  exists evs0 d', evs = evs0 ++ [Sleep d'].
Proof.
  intros ->. exists (l ++ [Random x; Random y]), d.
  rewrite <- app_assoc. reflexivity.
Qed.

Ltac attempt_done :=
  cbv zeta; cbn [fst snd]; eexists; econstructor;
  cbn [fs requests_sent draws_made tries trace];
  [ rewrite <- ?app_assoc; reflexivity
  | reflexivity
  | tally
  | tally
  | eapply ends_in_sleep; rewrite ?app_assoc; reflexivity
  | tally
  | rewrite ?Forall_app, ?Forall_cons; cbn;
    repeat split; auto using fetch_for_write_events
  | intros v Hv;
    first [ discriminate Hv
          | inversion Hv; subst; eexists; split; [reflexivity|]; tally ]
  | intros e He; first [ discriminate He | inversion He; reflexivity ] ].

(** Every pass through the loop body, whatever happens in it. *)
Lemma iteration_facts c w :
  exists evs,
    attempt_facts c w (iteration env c w).1 (iteration env c w).2 evs.
Proof.
  unfold iteration, try_suite. run.
  rewrite _download_captcha_eq. cbv zeta.
  destruct (ok (captcha_response env w)).
  2:{ cbn [except_clause]. rewrite finally_suite_eq. attempt_done. }
  destruct (Image_open env _) as [img|].
  2:{ cbn [except_clause]. run. destruct (debug c); run;
      rewrite finally_suite_eq; attempt_done. }
  destruct (String.length (get_captcha env img) =? 5)%nat eqn:Hlen.
  2:{ destruct (debug c); run; rewrite finally_suite_eq; attempt_done. }
  destruct (debug c); run; rewrite _download_shapefile_eq; cbv zeta;
    cbn [fs requests_sent draws_made tries trace];
    (destruct (ok (download_response _ _ _ _ _));
     [ destruct (headers_get _ "Content-Length") as [str|];
       [ destruct (int_of_str str) as [n|];
         [ destruct ((n =? 0) || _) | ] | ] | ]);
    cbn [except_clause]; run; try (destruct (debug c); run);
    rewrite finally_suite_eq; attempt_done.
Qed.

(** The loop: it ends within the fuel [tries] asks for, and every pass
    through its body is accounted for. *)
Lemma while_tries_facts fuel : forall c w,
  (Z.to_nat (tries w) <= fuel)%nat ->
  exists r w' evs,
    while_tries env fuel c w = Some (r, w') /\ loop_facts c w r w' evs.
Proof.
  induction fuel as [|fuel IH]; intros c w Hfuel.
  - assert (Hle : tries w <= 0) by lia.
    exists (Returned PyFalse), w, []. split.
    + simpl. destruct (Z.ltb_spec 0 (tries w)); [lia | reflexivity].
    + constructor; rewrite ?occurrences_nil; try lia; auto.
      * rewrite app_nil_r. reflexivity.
      * intros e He. discriminate He.
  - cbn [while_tries]. destruct (Z.ltb_spec 0 (tries w)) as [Hpos|Hle].
    2:{ exists (Returned PyFalse), w, []. split; [reflexivity|].
        constructor; rewrite ?occurrences_nil; try lia; auto.
        - rewrite app_nil_r. reflexivity.
        - intros e He. discriminate He. }
    destruct (iteration_facts c w) as [evs1 F1].
    destruct (iteration env c w) as [r1 w1]. cbn [fst snd] in F1.
    destruct F1 as [Ftr Ftries Facq Fsl Flast Ffetch Freg Fret Fraise].
    destruct r1 as [[v|]|e].
    + exists (Returned v), w1, evs1. split; [reflexivity|].
      destruct (Fret v eq_refl) as (p & -> & _).
      constructor; rewrite ?Facq; try lia; auto.
      * intros He; discriminate He.
      * intros e He; discriminate He.
    + destruct (IH c w1 ltac:(lia)) as (r & w' & evs2 & Hrun & F2).
      exists r, w', (evs1 ++ evs2). split; [exact Hrun|].
      destruct F2 as [Gtr Gtries Gbound Gfirst Gsl Gidle Glast Gfetch Greg
                        Gfalse Graise].
      constructor; rewrite ?occurrences_app, ?Facq, ?Fsl; try lia; auto.
      * rewrite Gtr, Ftr, app_assoc. reflexivity.
      * intros _.
        destruct (Nat.eq_dec (occurrences is_acquisition evs2) 0%nat) as [H0|H0].
        -- rewrite (Gidle H0), app_nil_r. exact Flast.
        -- destruct (Glast ltac:(lia)) as (evs0 & d & ->).
           exists (evs1 ++ evs0), d. rewrite app_assoc. reflexivity.
      * apply Forall_app; split; assumption.
      * intros Hr. rewrite (Gfalse Hr). lia.
    + exists (Raised e), w1, evs1. split; [reflexivity|].
      constructor; rewrite ?Facq; try lia; auto.
      * intros He; discriminate He.
      * intros e' He; inversion He; subst. apply Fraise. reflexivity.
Qed.

(** [download_state] is total: the directory is made, then the loop runs
    from budget [n] and ends. *)
Lemma download_state_facts c n w :
  exists r w' evs,
    download_state env c n w = Some (r, w') /\
    trace w' = trace w ++ Mkdir (folder c) :: evs /\
    loop_facts c
      (World (fs w) (requests_sent w) (draws_made w) n
             (trace w ++ [Mkdir (folder c)])) r w' evs.
Proof.
  unfold download_state. run.
  destruct (while_tries_facts (Z.to_nat n) c
              (World (fs w) (requests_sent w) (draws_made w) n
                     (trace w ++ [Mkdir (folder c)])))
    as (r & w' & evs & Hrun & F); [reflexivity|].
  exists r, w', evs. split; [exact Hrun|]. split; [|exact F].
  rewrite (lp_trace _ _ _ _ _ F). cbn [trace].
  rewrite <- app_assoc. reflexivity.
Qed.

(** The same, told of the whole call. *)
Lemma download_state_run c n w :
  exists r w' evs,
    download_state env c n w = Some (r, w') /\ run_facts c n w r w' evs.
Proof.
  destruct (download_state_facts c n w) as (r & w' & evs & Hrun & Htr & F).
  destruct F as [_ Gtries Gbound Gfirst Gsl Gidle Glast Gfetch Greg
                   Gfalse Graise].
  cbn [tries] in *.
  exists r, w', (Mkdir (folder c) :: evs). split; [exact Hrun|].
  constructor; rewrite ?occurrences_cons; cbn [is_acquisition is_sleep
    is_fetch is_shaped_solve Nat.add]; auto.
  - eexists; reflexivity.
  - intros Hpos. destruct (Glast Hpos) as (evs0 & d & ->).
    exists (Mkdir (folder c) :: evs0), d. reflexivity.
  - constructor; [exact I | exact Greg].
Qed.

(** With no budget left the loop is over at once, whatever the fuel. *)
Lemma while_tries_no_budget fuel c w :
  tries w <= 0 -> while_tries env fuel c w = Some (Returned PyFalse, w).
Proof.
  intros Hle. destruct fuel; cbn [while_tries];
    destruct (Z.ltb_spec 0 (tries w)); first [lia | reflexivity].
Qed.

(** A pass that neither returns nor raises hands over to the rest of the
    loop. *)
Lemma while_tries_continue fuel c w w' :
  0 < tries w ->
  iteration env c w = (Returned None, w') ->
  while_tries env (S fuel) c w = while_tries env fuel c w'.
Proof.
  intros Hpos Hit. cbn [while_tries].
  destruct (Z.ltb_spec 0 (tries w)); [|lia]. rewrite Hit. reflexivity.
Qed.

End Methods.

(** * The claims *)

(** ** Errors that leave the loop *)

(** C1 (the claim fails on the code).  Claimed: every transient stage error
    is caught inside the retry loop of [download_state] and only precondition
    errors reach the caller.  Here the captcha endpoint answers 503 and the
    budget is 3: [_get] raises [UrlNotOkException], the [except] clause does
    not list that class, and the exception, which is no precondition error,
    leaves [download_state] after the first attempt. *)
Theorem download_state_lets_UrlNotOkException_out :
  exists w',
    download_state Examples.captcha_down Examples.sp_call 3 Examples.start
      = Some (Raised (UrlNotOkException (ReCaptcha 500000)), w')
    /\ is_precondition_error (UrlNotOkException (ReCaptcha 500000)) = false
    /\ occurrences is_acquisition (trace w') = 1%nat.
Proof.
  eexists. split; [vm_compute; reflexivity|].
  split; vm_compute; reflexivity.
Qed.

(** C2 (the claim fails on the code).  Claimed: a non-success status of the
    captcha fetch makes [_download_captcha] fail with
    [FailedToDownloadCaptchaException] and nothing else.  Whenever the reply
    is not ok, what [_download_captcha] raises is the [UrlNotOkException] of
    [_get]: its own test of [response.ok] is never reached. *)
Theorem _download_captcha_not_ok_raises_UrlNotOkException
    (env : environment) (w : world) :
  ok (captcha_response env w) = false ->
  (_download_captcha env w).1 = Raised (UrlNotOkException (captcha_url env w))
  /\ (_download_captcha env w).1 <> Raised FailedToDownloadCaptchaException.
Proof.
  intros Hok. rewrite _download_captcha_eq. cbv zeta. rewrite Hok.
  split; [reflexivity | discriminate].
Qed.

Lemma _download_captcha_not_ok_witness :
  ok (captcha_response Examples.captcha_down Examples.start) = false
  /\ (_download_captcha Examples.captcha_down Examples.start).1
     = Raised (UrlNotOkException (ReCaptcha 500000)).
Proof.
  split; [vm_compute; reflexivity|].
  apply (_download_captcha_not_ok_raises_UrlNotOkException
           Examples.captcha_down Examples.start).
  vm_compute; reflexivity.
Defined.

(** ** The region identifier *)

(** C3, counterexample.  [XX] names no state; yet with a budget of 2 and a
    remote system that refuses every solution, [download_state] raises
    nothing: it acquires two captchas, sends two download requests for [XX],
    uses up the budget and returns [False]. *)
Lemma unknown_region_is_tried_not_refused :
  exists w',
    download_state Examples.always_rejected Examples.xx_call 2 Examples.start
      = Some (Returned PyFalse, w')
    /\ occurrences is_acquisition (trace w') = 2%nat
    /\ occurrences is_fetch (trace w') = 2%nat
    /\ tries w' = 0.
Proof.
  eexists. split; [vm_compute; reflexivity|].
  repeat split; vm_compute; reflexivity.
Qed.

(** C3, amended.  [download_state] does not look at the region identifier:
    whatever it is, the call ends, what it raises (if anything) is no
    precondition error, every download request carries the identifier as
    given, and with a positive budget a first attempt is made and charged. *)
Theorem download_state_never_checks_the_region
    (env : environment) (c : call) (n : Z) (w : world) :
  exists r w' evs,
    download_state env c n w = Some (r, w')
    /\ trace w' = trace w ++ evs
    /\ (forall e, r = Raised e -> is_precondition_error e = false)
    /\ Forall (fetch_for (state c)) evs
    /\ (0 < n ->
        (1 <= occurrences is_acquisition evs)%nat
        /\ tries w' = n - Z.of_nat (occurrences is_acquisition evs)).
Proof.
  destruct (download_state_run env c n w) as (r & w' & evs & Hrun & F).
  exists r, w', evs. split; [exact Hrun|].
  split; [exact (rn_trace _ _ _ _ _ _ F)|].
  split; [exact (rn_raise _ _ _ _ _ _ F)|].
  split; [exact (rn_region _ _ _ _ _ _ F)|].
  intros Hpos. split.
  - exact (rn_first _ _ _ _ _ _ F Hpos).
  - exact (rn_tries _ _ _ _ _ _ F).
Qed.

(** ** No budget *)

(** C5.  With [tries <= 0] the loop body never runs: the directory is made,
    [False] is returned, and the trace gains no GET at all, so neither a
    captcha acquisition nor a download request; the files are untouched. *)
Theorem download_state_without_budget
    (env : environment) (c : call) (n : Z) (w : world) :
  n <= 0 ->
  exists w',
    download_state env c n w = Some (Returned PyFalse, w')
    /\ trace w' = trace w ++ [Mkdir (folder c)]
    /\ occurrences is_network_call [Mkdir (folder c)] = 0%nat
    /\ occurrences is_acquisition [Mkdir (folder c)] = 0%nat
    /\ occurrences is_fetch [Mkdir (folder c)] = 0%nat
    /\ fs w' = fs w.
Proof.
  intros Hn.
  exists (World (fs w) (requests_sent w) (draws_made w) n
                (trace w ++ [Mkdir (folder c)])).
  split; [|repeat split; reflexivity].
  unfold download_state. cbv [mbind M_bind bind emit set_tries].
  cbn [fs requests_sent draws_made tries trace].
  apply while_tries_no_budget. exact Hn.
Qed.

Lemma download_state_without_budget_witness :
  0 <= 0
  /\ exists w',
       download_state Examples.fair_weather Examples.sp_call 0 Examples.start
         = Some (Returned PyFalse, w')
       /\ trace w' = [Mkdir "temp"].
Proof.
  split; [lia|].
  destruct (download_state_without_budget
              Examples.fair_weather Examples.sp_call 0 Examples.start)
    as (w' & Hrun & Htr & _); [lia|].
  exists w'. split; [exact Hrun | exact Htr].
Defined.

(** ** Shape-invalid solutions *)

(** C6.  In an attempt whose captcha was acquired as [img] and read by the
    solver as a text of length other than 5, [_download_shapefile] is not
    called: the pass through the loop body sends no download request, neither
    returns nor raises, takes one unit off [tries], and the loop goes on to
    its next test. *)
Theorem shape_invalid_attempt_never_fetches
    (env : environment) (c : call) (w : world) (img : image) :
  (_download_captcha env w).1 = Returned img ->
  String.length (get_captcha env img) <> 5%nat ->
  exists w' evs,
    iteration env c w = (Returned None, w')
    /\ trace w' = trace w ++ evs
    /\ occurrences is_fetch evs = 0%nat
    /\ occurrences is_acquisition evs = 1%nat
    /\ tries w' = tries w - 1
    /\ forall fuel, 0 < tries w ->
         while_tries env (S fuel) c w = while_tries env fuel c w'.
Proof.
  intros Hacq Hlen.
  apply Nat.eqb_neq in Hlen.
  assert (Hit : exists w' evs,
             iteration env c w = (Returned None, w')
             /\ trace w' = trace w ++ evs
             /\ occurrences is_fetch evs = 0%nat
             /\ occurrences is_acquisition evs = 1%nat
             /\ tries w' = tries w - 1).
  { unfold iteration, try_suite. run.
    rewrite _download_captcha_eq in Hacq |- *. cbv zeta in Hacq |- *.
    destruct (ok (captcha_response env w)); [|discriminate Hacq].
    destruct (Image_open env _) as [img'|]; [|discriminate Hacq].
    cbn [fst] in Hacq. injection Hacq as ->.
    rewrite Hlen.
    destruct (debug c); run; rewrite finally_suite_eq; cbv zeta;
      (eexists; eexists; split; [reflexivity|];
       cbn [fs requests_sent draws_made tries trace];
       split; [rewrite <- ?app_assoc; reflexivity|];
       split; [tally|]; split; [tally | reflexivity]). }
  destruct Hit as (w' & evs & Hit & Htr & Hf & Ha & Ht).
  exists w', evs. repeat (split; [assumption|]).
  intros fuel Hpos. apply while_tries_continue; assumption.
Qed.

Lemma shape_invalid_attempt_witness :
  (_download_captcha Examples.short_sighted Examples.start).1
    = Returned (Bitmap Examples.png)
  /\ String.length (get_captcha Examples.short_sighted
                      (Bitmap Examples.png)) <> 5%nat
  /\ exists w' evs,
       iteration Examples.short_sighted Examples.sp_call Examples.start
         = (Returned None, w')
       /\ trace w' = trace Examples.start ++ evs
       /\ occurrences is_fetch evs = 0%nat.
Proof.
  assert (H1 : (_download_captcha Examples.short_sighted Examples.start).1
               = Returned (Bitmap Examples.png))
    by (vm_compute; reflexivity).
  assert (H2 : String.length (get_captcha Examples.short_sighted
                                (Bitmap Examples.png)) <> 5%nat)
    by (vm_compute; lia).
  split; [exact H1|]. split; [exact H2|].
  destruct (shape_invalid_attempt_never_fetches
              Examples.short_sighted Examples.sp_call Examples.start
              (Bitmap Examples.png) H1 H2)
    as (w' & evs & Hit & Htr & Hf & _).
  exists w', evs. repeat split; assumption.
Defined.

(** ** Sleeping *)

(** C7, counterexample.  Budget 1, everything works: the single attempt
    downloads the archive, and the path is returned only after the sleep of
    the [finally] suite, the last event of the trace (a little over one
    second here).  One attempt, one sleep. *)
Lemma success_sleeps_before_it_returns :
  exists w',
    download_state Examples.fair_weather Examples.sp_call 1 Examples.start
      = Some (Returned (PyPath "temp/SHAPE_SP_AREA_IMOVEL.zip"), w')
    /\ List.last (trace w') (Mkdir "")
       = Sleep (Float53 9007199254743992)
    /\ occurrences is_acquisition (trace w') = 1%nat
    /\ occurrences is_sleep (trace w') = 1%nat.
Proof.
  eexists. split; [vm_compute; reflexivity|].
  repeat split; vm_compute; reflexivity.
Qed.

(** C7, amended.  The sleep stands in the [finally] suite, so it follows
    every attempt whatever the attempt did: a call of [download_state] sleeps
    exactly as many times as it acquires a captcha, and when there was an
    attempt at all the last thing the call does, before it returns the path
    or [False] or lets an exception out, is to sleep. *)
Theorem download_state_sleeps_after_every_attempt
    (env : environment) (c : call) (n : Z) (w : world) :
  exists r w' evs,
    download_state env c n w = Some (r, w')
    /\ trace w' = trace w ++ evs
    /\ occurrences is_sleep evs = occurrences is_acquisition evs
    /\ ((0 < occurrences is_acquisition evs)%nat ->
        exists evs0 d, evs = evs0 ++ [Sleep d]).
Proof.
  destruct (download_state_run env c n w) as (r & w' & evs & Hrun & F).
  exists r, w', evs. split; [exact Hrun|].
  split; [exact (rn_trace _ _ _ _ _ _ F)|].
  split; [exact (rn_sleep _ _ _ _ _ _ F)|].
  exact (rn_last _ _ _ _ _ _ F).
Qed.

(** ** The budget *)

(** C9 (the claim fails on the code).  Claimed: the loop stops at zero budget
    or on the first success.  With budget 3 and a captcha endpoint that
    answers 503 the loop is left after one pass, by the [UrlNotOkException]
    that nothing catches: [tries] stands at 2 and no download was tried. *)
Theorem retry_loop_left_with_budget_and_no_success :
  exists w',
    download_state Examples.captcha_down Examples.sp_call 3 Examples.start
      = Some (Raised (UrlNotOkException (ReCaptcha 500000)), w')
    /\ tries w' = 2
    /\ occurrences is_acquisition (trace w') = 1%nat
    /\ occurrences is_fetch (trace w') = 0%nat.
Proof.
  eexists. split; [vm_compute; reflexivity|].
  repeat split; vm_compute; reflexivity.
Qed.

(** ** Rejected downloads leave no file *)

(** C10.  When [_download_shapefile] raises
    [FailedToDownloadShapefileException], all it has done is the GET: no file
    was opened, nothing was written, the files are as they were. *)
Theorem _download_shapefile_failure_leaves_no_file
    (env : environment) (s : pyvalue) (cap : string) (t : pyvalue)
    (fld : string) (cs : Z) (w : world) :
  (_download_shapefile env s cap t fld cs w).1
    = Raised FailedToDownloadShapefileException ->
  fs (_download_shapefile env s cap t fld cs w).2 = fs w
  /\ trace (_download_shapefile env s cap t fld cs w).2
     = trace w ++ [Get (DownloadBase s t cap)]
  /\ occurrences is_open [Get (DownloadBase s t cap)] = 0%nat
  /\ occurrences is_write [Get (DownloadBase s t cap)] = 0%nat.
Proof.
  rewrite _download_shapefile_eq. cbv zeta.
  destruct (ok _); [|intros _; repeat split; reflexivity].
  destruct (headers_get _ "Content-Length") as [str|];
    [|intros _; repeat split; reflexivity].
  destruct (int_of_str str) as [n|]; [|intros H; discriminate H].
  destruct ((n =? 0) || _); [intros _; repeat split; reflexivity|].
  intros H; discriminate H.
Qed.

Lemma _download_shapefile_failure_witness :
  (_download_shapefile Examples.always_rejected (PyStr "SP") "7G3K9"
     (PyStr "AREA_IMOVEL") "temp" 1024 Examples.start).1
    = Raised FailedToDownloadShapefileException
  /\ fs (_download_shapefile Examples.always_rejected (PyStr "SP") "7G3K9"
           (PyStr "AREA_IMOVEL") "temp" 1024 Examples.start).2
     = fs Examples.start.
Proof.
  assert (H : (_download_shapefile Examples.always_rejected (PyStr "SP")
                 "7G3K9" (PyStr "AREA_IMOVEL") "temp" 1024 Examples.start).1
              = Raised FailedToDownloadShapefileException)
    by (vm_compute; reflexivity).
  split; [exact H|].
  exact (proj1 (_download_shapefile_failure_leaves_no_file
                  Examples.always_rejected (PyStr "SP") "7G3K9"
                  (PyStr "AREA_IMOVEL") "temp" 1024 Examples.start H)).
Defined.

(** ** The three checks of [_download_shapefile] *)

(** C4 (the claim fails on the code).  Claimed: [_download_shapefile] raises
    [FailedToDownloadShapefileException] exactly when the status is not a
    success, or the Content-Length is zero or absent, or the Content-Type
    does not start with [application/zip], and otherwise streams the payload
    and returns the artifact path.  First reply: status 200, Content-Type
    [application/zip], Content-Length [4, 4].  None of the three conditions
    holds, yet no path is returned and nothing is streamed: [int] raises
    [ValueError] right after the GET.  Second reply: status 200, Content-Type
    [text/html], Content-Length [abc].  The third condition holds, yet the
    exception is [ValueError], not [FailedToDownloadShapefileException].
    [download_state] does not catch [ValueError]: with a budget of 3 the call
    is over after one attempt. *)
Theorem _download_shapefile_lets_ValueError_out :
  (ok Scenarios.folded_length = true
   /\ headers_get Scenarios.folded_length "Content-Length" = Some "4, 4"
   /\ int_of_str "4, 4" = None
   /\ zip_content_type Scenarios.folded_length = true
   /\ exists w',
        _download_shapefile Scenarios.twice_announced (PyStr "SP") "7G3K9"
          (PyStr "AREA_IMOVEL") "temp" 1024 Examples.start
          = (Raised ValueError, w')
        /\ fs w' = fs Examples.start
        /\ trace w'
           = [Get (DownloadBase (PyStr "SP") (PyStr "AREA_IMOVEL") "7G3K9")])
  /\ (ok Examples.garbled = true
      /\ headers_get Examples.garbled "Content-Length" = Some "abc"
      /\ int_of_str "abc" = None
      /\ zip_content_type Examples.garbled = false
      /\ exists w',
           _download_shapefile Scenarios.not_a_number (PyStr "SP") "7G3K9"
             (PyStr "AREA_IMOVEL") "temp" 1024 Examples.start
             = (Raised ValueError, w')
           /\ fs w' = fs Examples.start)
  /\ exists w',
       download_state Scenarios.twice_announced Examples.sp_call 3
         Examples.start
         = Some (Raised ValueError, w')
       /\ tries w' = 2
       /\ occurrences is_fetch (trace w') = 1%nat
       /\ fs w' = fs Examples.start.
Proof.
  split; [|split].
  - repeat (split; [vm_compute; reflexivity|]).
    eexists. split; [vm_compute; reflexivity|].
    split; vm_compute; reflexivity.
  - repeat (split; [vm_compute; reflexivity|]).
    eexists. split; [vm_compute; reflexivity|].
    vm_compute; reflexivity.
  - eexists. split; [vm_compute; reflexivity|].
    split; [vm_compute; reflexivity|].
    split; vm_compute; reflexivity.
Qed.

(** ** The length of the sleep *)

(** The sum of two draws, as a multiple of [2^-53]. *)
Lemma round53_sum a b :
  0 <= a < 2 ^ 53 -> 0 <= b < 2 ^ 53 ->
  0 <= round53 (a + b) < 2 ^ 54
  /\ (round53 (a + b) = 0 <-> a = 0 /\ b = 0).
Proof.
  intros Ha Hb.
  destruct (Z.lt_ge_cases (a + b) (2 ^ 53)) as [Hs|Hs].
  - rewrite round53_small by exact Hs. lia.
  - rewrite round53_binade by lia.
    destruct (Z.even (a + b)) eqn:Hev; [lia|].
    assert (Hodd : (a + b) mod 2 = 1).
    { rewrite Zeven_mod in Hev.
      pose proof (Z.mod_pos_bound (a + b) 2 ltac:(lia)).
      destruct (Z.eqb_spec ((a + b) mod 2) 0); [discriminate Hev | lia]. }
    assert (Hne : a + b <> 2 ^ 54 - 2).
    { intros Heq. rewrite Heq in Hodd. vm_compute in Hodd. discriminate. }
    pose proof (Z.div_mod (a + b) 2 ltac:(lia)) as Hdm.
    destruct (Z.even ((a + b) / 2)) eqn:Hq.
    + lia.
    + assert (Hmax : a + b <> 2 ^ 54 - 3); [|lia].
      intros Heq. rewrite Heq in Hq. vm_compute in Hq. discriminate.
Qed.

Lemma float_value_sign x :
  ((0 <= float_value x)%Q <-> 0 <= numerator x)
  /\ ((0 < float_value x)%Q <-> 0 < numerator x)
  /\ ((float_value x < 2)%Q <-> numerator x < 2 ^ 54).
Proof.
  unfold float_value, Qle, Qlt. cbn [Qnum Qden].
  change (Z.pos (2 ^ 53)) with (2 ^ 53).
  change (2 ^ 54) with (2 * 2 ^ 53).
  repeat split; lia.
Qed.

(** C8, counterexample.  Both draws can be [0.0]; their sum is [0.0], which
    is not strictly positive.  With a generator that yields 0 the one sleep of
    a successful call lasts 0 seconds. *)
Lemma backoff_sleep_can_be_zero :
  float_add (draw 0) (draw 0) = Float53 0
  /\ (float_value (float_add (draw 0) (draw 0)) == 0)%Q
  /\ exists w',
       download_state Examples.stuck_generator Examples.sp_call 1
         Examples.start
         = Some (Returned (PyPath "temp/SHAPE_SP_AREA_IMOVEL.zip"), w')
       /\ List.last (trace w') (Mkdir "") = Sleep (Float53 0).
Proof.
  split; [vm_compute; reflexivity|].
  split; [vm_compute; reflexivity|].
  eexists. split; vm_compute; reflexivity.
Qed.

(** C8, amended.  The [finally] suite draws twice and sleeps for the float
    sum of the two draws.  That duration is never negative and always
    strictly below 2; it is strictly positive unless both draws are [0.0]
    (then it is [0.0]). *)
Theorem backoff_sleep_bounds (env : environment) (w : world) :
  let x := draw (generator env (draws_made w)) in
  let y := draw (generator env (S (draws_made w))) in
  let d := float_add x y in
  trace (finally_suite env w).2 = trace w ++ [Random x; Random y; Sleep d]
  /\ (0 <= float_value d)%Q
  /\ (float_value d < 2)%Q
  /\ ((0 < float_value d)%Q <-> ~ (numerator x = 0 /\ numerator y = 0)).
Proof.
  intros x y d. rewrite finally_suite_eq. cbv zeta. cbn [snd trace].
  split; [reflexivity|].
  destruct (round53_sum (numerator x) (numerator y)
              (draw_range _) (draw_range _)) as [Hrange Hzero].
  destruct (float_value_sign d) as (Hle & Hlt & Htwo).
  subst d. unfold float_add in *. cbn [numerator] in *.
  split; [apply Hle; lia|]. split; [apply Htwo; lia|].
  rewrite Hlt, <- Hzero. lia.
Qed.

(** * Further properties of the code *)

(** The budget is an upper bound and is charged one unit per attempt: every
    call of [download_state] ends; it makes at most [max n 0] attempts; on
    the way out, by [return] or by an exception, [tries] is [n] less the
    number of attempts; and [False] comes back only after [max n 0]
    attempts. *)
Theorem download_state_budget
    (env : environment) (c : call) (n : Z) (w : world) :
  exists r w' evs,
    download_state env c n w = Some (r, w')
    /\ trace w' = trace w ++ evs
    /\ (occurrences is_acquisition evs <= Z.to_nat n)%nat
    /\ tries w' = n - Z.of_nat (occurrences is_acquisition evs)
    /\ (r = Returned PyFalse ->
        occurrences is_acquisition evs = Z.to_nat n).
Proof.
  destruct (download_state_run env c n w) as (r & w' & evs & Hrun & F).
  exists r, w', evs. split; [exact Hrun|].
  split; [exact (rn_trace _ _ _ _ _ _ F)|].
  split; [exact (rn_bound _ _ _ _ _ _ F)|].
  split; [exact (rn_tries _ _ _ _ _ _ F)|].
  exact (rn_false _ _ _ _ _ _ F).
Qed.

(** Over a whole call, download requests and solver answers of length 5 are
    equally many: no request is spent on an answer of another length. *)
Theorem download_state_fetches_only_shaped_solutions
    (env : environment) (c : call) (n : Z) (w : world) :
  exists r w' evs,
    download_state env c n w = Some (r, w')
    /\ trace w' = trace w ++ evs
    /\ occurrences is_fetch evs = occurrences is_shaped_solve evs.
Proof.
  destruct (download_state_run env c n w) as (r & w' & evs & Hrun & F).
  exists r, w', evs. split; [exact Hrun|].
  split; [exact (rn_trace _ _ _ _ _ _ F)|].
  exact (rn_fetch _ _ _ _ _ _ F).
Qed.

(** When the captcha reply has a success status, [_download_captcha] returns
    the decoded image, or raises [FailedToDownloadCaptchaException] when the
    bytes are no image. *)
Theorem _download_captcha_ok (env : environment) (w : world) :
  ok (captcha_response env w) = true ->
  (_download_captcha env w).1 =
    match Image_open env (content (captcha_response env w)) with
    | Some img => Returned img
    | None => Raised FailedToDownloadCaptchaException
    end.
Proof.
  intros Hok. rewrite _download_captcha_eq. cbv zeta. rewrite Hok.
  destruct (Image_open env _); reflexivity.
Qed.

Lemma _download_captcha_ok_witness :
  ok (captcha_response Examples.fair_weather Examples.start) = true
  /\ (_download_captcha Examples.fair_weather Examples.start).1
     = Returned (Bitmap Examples.png).
Proof.
  split; [vm_compute; reflexivity|].
  rewrite (_download_captcha_ok Examples.fair_weather Examples.start)
    by (vm_compute; reflexivity).
  vm_compute. reflexivity.
Defined.

(** A Content-Length that [int] cannot read makes [_download_shapefile] raise
    [ValueError], before any file is opened. *)
Theorem _download_shapefile_garbled_length
    (env : environment) (s : pyvalue) (cap : string) (t : pyvalue)
    (fld : string) (cs : Z) (w : world) (str : string) :
  ok (download_response env w s cap t) = true ->
  headers_get (download_response env w s cap t) "Content-Length" = Some str ->
  int_of_str str = None ->
  (_download_shapefile env s cap t fld cs w).1 = Raised ValueError
  /\ fs (_download_shapefile env s cap t fld cs w).2 = fs w.
Proof.
  intros Hok Hcl Hint. rewrite _download_shapefile_eq. cbv zeta.
  rewrite Hok, Hcl, Hint. split; reflexivity.
Qed.

Lemma _download_shapefile_garbled_length_witness :
  (_download_shapefile
     (Examples.surroundings Examples.captcha_reply Examples.garbled "7G3K9"
        (fun _ => 0))
     (PyStr "SP") "7G3K9" PyNone "temp" 1024 Examples.start).1
  = Raised ValueError.
Proof.
  apply (_download_shapefile_garbled_length
           (Examples.surroundings Examples.captcha_reply Examples.garbled
              "7G3K9" (fun _ => 0))
           (PyStr "SP") "7G3K9" PyNone "temp" 1024 Examples.start "abc");
    vm_compute; reflexivity.
Defined.

(** * More of the code *)

(** ** Rounding, and the captcha id *)

(** Rounding moves a value by half a unit in the last place at most. *)
Lemma round53_near n :
  2 ^ 53 <= n ->
  0 <= round53 n <= n + 2 ^ (Z.log2 n - 53).
Proof.
  intros Hn. unfold round53.
  destruct (Z.ltb_spec n (2 ^ 53)) as [Hlt|_]; [lia|].
  assert (Hlog : 53 <= Z.log2 n).
  { apply Z.log2_le_pow2; lia. }
  set (s := Z.log2 n - 52).
  replace (Z.log2 n - 53) with (s - 1) by (subst s; lia).
  assert (Hs : 1 <= s) by (subst s; lia).
  assert (Hpow : 2 ^ s = 2 * 2 ^ (s - 1)).
  { replace s with (Z.succ (s - 1)) at 1 by lia.
    apply Z.pow_succ_r. lia. }
  assert (Hhalf : 0 < 2 ^ (s - 1)) by (apply Z.pow_pos_nonneg; lia).
  set (half := 2 ^ (s - 1)) in *.
  set (P := 2 ^ s) in *.
  pose proof (Z.div_mod n P ltac:(lia)) as Hdm.
  pose proof (Z.mod_pos_bound n P ltac:(lia)) as Hr.
  assert (Hq : 0 <= n / P) by (apply Z.div_pos; lia).
  set (q := n / P) in *. set (r := n mod P) in *.
  assert (Hqp : 0 <= q * P) by (apply Z.mul_nonneg_nonneg; lia).
  destruct (Z.ltb_spec r half); [lia|].
  destruct (Z.ltb_spec half r); [lia|].
  destruct (Z.even q); lia.
Qed.

(** [int(random.random() * 1000000)] has six digits at most. *)
Lemma captcha_id_range g :
  0 <= int_of_float (float_mul (draw g) 1000000) < 1000000.
Proof.
  pose proof (draw_range g) as Hk.
  unfold int_of_float, float_mul. cbn [numerator].
  set (k := numerator (draw g)) in *.
  assert (Hbound : 0 <= round53 (k * 1000000) < 1000000 * 2 ^ 53).
  { destruct (Z.lt_ge_cases (k * 1000000) (2 ^ 53)) as [Hs|Hs].
    - rewrite round53_small by exact Hs. lia.
    - pose proof (round53_near (k * 1000000) Hs) as Hnear.
      assert (Hlog : Z.log2 (k * 1000000) < 73).
      { apply Z.log2_lt_pow2; [lia|].
        change (2 ^ 73) with (2 ^ 53 * 1048576). lia. }
      assert (Hulp : 2 ^ (Z.log2 (k * 1000000) - 53) <= 2 ^ 19).
      { apply Z.pow_le_mono_r; lia. }
      change (2 ^ 19) with 524288 in Hulp. lia. }
  split.
  - apply Z.div_pos; lia.
  - apply Z.div_lt_upper_bound; lia.
Qed.

(** ** Sleeps, solver calls and ids in a trace *)

Lemma sleep_units_app l1 l2 :
  sleep_units (l1 ++ l2) = sleep_units l1 + sleep_units l2.
Proof.
  induction l1 as [|e l1 IH]; [reflexivity|].
  destruct e; cbn [app sleep_units]; rewrite IH; lia.
Qed.

Lemma sleep_units_write_events path chunks :
  sleep_units (write_events path chunks) = 0.
Proof. induction chunks as [|ch chunks IH]; [reflexivity | exact IH]. Qed.

Lemma write_events_harmless (P : event -> Prop) path chunks :
  (forall ch, P (Write path ch)) -> (forall n, P (Progress n)) ->
  Forall P (write_events path chunks).
Proof.
  intros Hw Hp. induction chunks as [|ch chunks IH]; simpl.
  - constructor.
  - repeat constructor; auto.
Qed.

Lemma quiet_app l1 l2 : quiet (l1 ++ l2) = quiet l1 ++ quiet l2.
Proof. apply List.filter_app. Qed.

Lemma quiet_write_events path chunks :
  quiet (write_events path chunks) = write_events path chunks.
Proof.
  induction chunks as [|ch chunks IH]; [reflexivity|].
  change (write_events path (ch :: chunks))
    with ([Write path ch; Progress (Z.of_nat (length ch))]
            ++ write_events path chunks).
  rewrite quiet_app, IH. reflexivity.
Qed.

(** The sleep of the [finally] suite is in range. *)
Lemma backoff_in_range g1 g2 :
  sleep_in_range (Sleep (float_add (draw g1) (draw g2)))
  /\ 0 <= numerator (float_add (draw g1) (draw g2)) < 2 ^ 54.
Proof.
  destruct (round53_sum (numerator (draw g1)) (numerator (draw g2))
              (draw_range _) (draw_range _)) as [Hrange _].
  destruct (float_value_sign (float_add (draw g1) (draw g2)))
    as (Hle & _ & Htwo).
  unfold float_add in *. cbn [numerator sleep_in_range] in *.
  split; [split; [apply Hle | apply Htwo]; lia | lia].
Qed.

(** ** One pass through the loop body, all its cases *)

(** Split a goal about [iteration env c w] into the fifteen ways a pass can
    go; the conditions met on the way are left as hypotheses. *)
Ltac iteration_cases env c w :=
  unfold iteration, try_suite; run;
  rewrite _download_captcha_eq; cbv zeta;
  destruct (ok (captcha_response env w)) eqn:Hok1;
  [ destruct (Image_open env (content (captcha_response env w)))
      as [img|] eqn:Himg;
    [ destruct (String.length (get_captcha env img) =? 5)%nat eqn:Hlen;
      [ destruct (debug c) eqn:Hdbg; run;
        rewrite _download_shapefile_eq; cbv zeta;
        cbn [fs requests_sent draws_made tries trace];
        (destruct (ok (download_response _ _ _ _ _)) eqn:Hok2;
         [ destruct (headers_get _ "Content-Length") as [str|] eqn:Hcl;
           [ destruct (int_of_str str) as [len|] eqn:Hint;
             [ destruct ((len =? 0) || _) eqn:Hchk | ] | ] | ]);
        cbn [except_clause]; run; rewrite ?Hdbg; run
      | destruct (debug c) eqn:Hdbg; run ]
    | cbn [except_clause]; run; destruct (debug c) eqn:Hdbg; run ]
  | cbn [except_clause] ];
  rewrite finally_suite_eq; cbv zeta;
  cbn [fst snd fs requests_sent draws_made tries trace];
  unfold download_response, captcha_response, captcha_url in *;
  cbn [requests_sent draws_made] in *.

(** Count events of any kind. *)
Ltac census :=
  rewrite ?occurrences_app, ?occurrences_cons, ?occurrences_write_events,
    ?occurrences_nil by reflexivity;
  cbn [is_acquisition is_sleep is_fetch is_shaped_solve is_open is_write
       is_solve is_print is_network_call Nat.add];
  first [reflexivity | lia].

(** A property of events that holds of each event of a trace built by
    appending; [tac] proves it of the events where it is not [True]. *)
Ltac each_event tac :=
  rewrite ?Forall_app, ?Forall_cons, ?Forall_nil;
  repeat match goal with |- _ /\ _ => split end;
  first [ exact I
        | apply write_events_harmless; intros; exact I
        | tac ].

Lemma accepted_intro (r : response) str len :
  ok r = true ->
  headers_get r "Content-Length" = Some str ->
  int_of_str str = Some len ->
  (len =? 0) || negb (zip_content_type r) = false ->
  accepted r.
Proof.
  intros Hok Hcl Hint Hchk. apply orb_false_iff in Hchk as [Hlen Hzip].
  apply Z.eqb_neq in Hlen. apply negb_false_iff in Hzip.
  split; [exact Hok|]. split; [exact Hzip|].
  exists len. split; [|exact Hlen]. exists str. split; assumption.
Qed.

Lemma iteration_ledger env c w :
  exists evs,
    attempt_ledger env c w (iteration env c w).1 (iteration env c w).2 evs.
Proof.
  iteration_cases env c w.
  all: eexists; constructor; cbn [fs requests_sent draws_made tries trace].
  all: first
    [ rewrite <- ?app_assoc; reflexivity
    | exact I
    | split; [reflexivity
             | eapply downloaded; eapply accepted_intro; eassumption]
    | eapply captcha_unreachable; eassumption
    | eapply length_unreadable; split;
      [eassumption | eexists; split; eassumption]
    | eexists _, _; split;
      [ eapply accepted_intro; eassumption
      | split; [reflexivity | census] ]
    | split; [reflexivity | split; census]
    | census
    | each_event
        ltac:(first [ apply (proj1 (backoff_in_range _ _))
                    | split; [reflexivity | eexists _, _; eassumption]
                    | apply captcha_id_range ])
    | rewrite ?sleep_units_app; cbn [sleep_units];
      rewrite ?sleep_units_write_events;
      match goal with
      | |- context [float_add (draw ?a) (draw ?b)] =>
          pose proof (proj2 (backoff_in_range a b))
      end; lia ].
Qed.

(** ** The loop, pass after pass *)

Lemma while_tries_ledger env fuel : forall c w,
  (Z.to_nat (tries w) <= fuel)%nat ->
  exists r w' evs,
    while_tries env fuel c w = Some (r, w') /\ run_ledger env c w r w' evs.
Proof.
  assert (Hstop : forall c w,
             run_ledger env c w (Returned PyFalse) w []).
  { intros c w. constructor; rewrite ?occurrences_nil; cbn [sleep_units];
      try (constructor; fail); try lia; auto.
    - rewrite app_nil_r. reflexivity. }
  induction fuel as [|fuel IH]; intros c w Hfuel.
  - exists (Returned PyFalse), w, []. split; [|apply Hstop].
    apply while_tries_no_budget. lia.
  - cbn [while_tries]. destruct (Z.ltb_spec 0 (tries w)) as [Hpos|Hle].
    2:{ exists (Returned PyFalse), w, []. split; [reflexivity | apply Hstop]. }
    destruct (iteration_facts env c w) as [evs1 F1].
    destruct (iteration_ledger env c w) as [evs1' L1].
    destruct (iteration env c w) as [r1 w1]. cbn [fst snd] in F1, L1.
    assert (evs1' = evs1) as ->.
    { apply (app_inv_head (trace w)).
      rewrite <- (al_trace _ _ _ _ _ _ L1), <- (at_trace _ _ _ _ _ F1).
      reflexivity. }
    destruct F1 as [_ Ftries Facq _ _ _ _ _ _].
    destruct L1 as [Ltr Lend Lfiles Lfetched Lsleeps Lunits Lsolved Lsolves
                      Lids].
    destruct r1 as [[v|]|e].
    + destruct Lend as [-> Lend].
      exists (Returned (PyPath (artifact env c))), w1, evs1.
      split; [reflexivity|].
      constructor; rewrite ?Facq; try assumption; lia.
    + destruct (IH c w1 ltac:(lia)) as (r & w' & evs2 & Hrun & L2).
      destruct L2 as [Gtr Gend Gfiles Gfetched Gsleeps Gunits Gsolved Gsolves
                        Gids].
      destruct Lfiles as (Hfs & Hopen & Hwrite).
      exists r, w', (evs1 ++ evs2). split; [exact Hrun|].
      constructor; rewrite ?occurrences_app, ?sleep_units_app, ?Facq,
        ?Hopen, ?Hwrite; try (apply Forall_app; split; assumption).
      * rewrite Gtr, Ltr, app_assoc. reflexivity.
      * exact Gend.
      * destruct r as [[p|]|e]; rewrite <- ?Hfs; exact Gfiles.
      * destruct r as [[p|]|[]]; try exact I; lia.
      * rewrite Nat2Z.inj_add. lia.
      * lia.
    + exists (Raised e), w1, evs1. split; [reflexivity|].
      constructor; rewrite ?Facq; try assumption; lia.
Qed.

(** A whole call: the directory, then the loop. *)
Lemma download_state_ledger env c n w :
  exists r w' evs,
    download_state env c n w = Some (r, w')
    /\ run_facts c n w r w' evs
    /\ run_ledger env c w r w' evs.
Proof.
  destruct (download_state_run env c n w) as (r & w' & evs & Hrun & F).
  exists r, w', evs. split; [exact Hrun|]. split; [exact F|].
  unfold download_state in Hrun. revert Hrun. run. intros Hrun.
  destruct (while_tries_ledger env (Z.to_nat n) c
              (World (fs w) (requests_sent w) (draws_made w) n
                     (trace w ++ [Mkdir (folder c)])))
    as (r2 & w2 & evs2 & Hrun2 & L); [reflexivity|].
  rewrite Hrun in Hrun2. injection Hrun2 as <- <-.
  destruct L as [Gtr Gend Gfiles Gfetched Gsleeps Gunits Gsolved Gsolves
                   Gids].
  cbn [fs trace] in *.
  assert (evs = Mkdir (folder c) :: evs2) as ->.
  { apply (app_inv_head (trace w)).
    rewrite <- (rn_trace _ _ _ _ _ _ F), Gtr, <- app_assoc. reflexivity. }
  constructor; rewrite ?occurrences_cons;
    cbn [is_acquisition is_open is_write is_fetch is_solve Nat.add
         sleep_units];
    try assumption; try (constructor; [exact I | assumption]).
  rewrite Gtr, <- app_assoc. reflexivity.
Qed.

(** ** How a call can end, and what it leaves on disk *)



(** ** Runs that cannot succeed *)

Lemma shaped_solves_are_solves evs :
  (occurrences is_shaped_solve evs <= occurrences is_solve evs)%nat.
Proof.
  induction evs as [|e evs IH]; [reflexivity|].
  rewrite !occurrences_cons.
  destruct e; cbn [is_shaped_solve is_solve]; try lia.
  destruct (String.length text =? 5)%nat; lia.
Qed.

Lemma no_image_no_solve env evs :
  (forall k id,
     Image_open env (content (session_get env k (ReCaptcha id))) = None) ->
  Forall (solved_by env) evs ->
  occurrences is_solve evs = 0%nat.
Proof.
  intros Hnone Hall. induction Hall as [|e evs He _ IH]; [reflexivity|].
  rewrite occurrences_cons, IH.
  destruct e; cbn [is_solve]; try reflexivity.
  destruct He as (_ & k & id & Himg). rewrite Hnone in Himg. discriminate.
Qed.

Lemma accepted_not_rejected r : accepted r -> rejected r -> False.
Proof.
  unfold accepted, rejected, content_length_absent, content_length_is.
  intros (Hok & Hzip & n & (str & Hcl & Hint) & Hn) Hrej.
  destruct Hrej as [H | [H | [(str' & Hcl' & Hint') | ((n' & _) & H)]]];
    congruence.
Qed.

Lemma garbled_not_rejected r : garbled_length r -> rejected r -> False.
Proof.
  unfold garbled_length, rejected, content_length_absent, content_length_is.
  intros (Hok & str & Hcl & Hint) Hrej.
  destruct Hrej
    as [H | [H | [(str' & Hcl' & Hint')
                 | ((n' & str' & Hcl' & Hint') & H)]]];
    congruence.
Qed.

(** ** The three checks, reply by reply *)

(** Once the kind of the reply is known: each part of the goal holds by
    evaluation, or has a premise that contradicts what is known. *)
Ltac reply_sorted :=
  cbn [fst snd fs trace];
  repeat match goal with
         | |- _ /\ _ => split
         | |- _ <-> _ => split
         end;
  intros;
  first [ tauto
        | reflexivity
        | split; reflexivity
        | match goal with H : _ = _ |- _ => discriminate H end ].

(** What [_download_shapefile] does, for every reply.  A reply is rejected
    (status not a success; or Content-Length absent, or read as zero; or
    read as a number while the Content-Type does not start with
    [application/zip]), or its Content-Length cannot be read, or it is
    accepted.  The method raises [FailedToDownloadShapefileException] exactly
    for the rejected replies and [ValueError] exactly for the unreadable
    ones, both right after the GET and with the files as they were; exactly
    for the accepted ones it opens the artifact path, writes the chunks of
    the payload to it one after the other, and returns that path. *)
Theorem _download_shapefile_outcomes
    (env : environment) (s : pyvalue) (cap : string) (t : pyvalue)
    (fld : string) (cs : Z) (w : world) :
  let r := download_response env w s cap t in
  let res := _download_shapefile env s cap t fld cs w in
  let path := shape_path env fld s t in
  (rejected r \/ garbled_length r \/ accepted r)
  /\ (res.1 = Raised FailedToDownloadShapefileException <-> rejected r)
  /\ (res.1 = Raised ValueError <-> garbled_length r)
  /\ (res.1 = Returned path <-> accepted r)
  /\ (rejected r \/ garbled_length r ->
      fs res.2 = fs w
      /\ trace res.2 = trace w ++ [Get (DownloadBase s t cap)])
  /\ (accepted r ->
      fs res.2 = <[path := concat (iter_content r cs)]> (fs w)
      /\ trace res.2
         = trace w ++ Get (DownloadBase s t cap) :: Open path
             :: write_events path (iter_content r cs)).
Proof.
  intros r res path. subst res path.
  rewrite _download_shapefile_eq. cbv zeta. fold r.
  destruct (ok r) eqn:Hok.
  2:{ assert (Hrej : rejected r) by (left; exact Hok).
      assert (Hacc : ~ accepted r)
        by (intros H; exact (accepted_not_rejected r H Hrej)).
      assert (Hgar : ~ garbled_length r)
        by (intros H; exact (garbled_not_rejected r H Hrej)).
      reply_sorted. }
  destruct (headers_get r "Content-Length") as [str|] eqn:Hcl.
  2:{ assert (Hrej : rejected r) by (right; left; exact Hcl).
      assert (Hacc : ~ accepted r)
        by (intros H; exact (accepted_not_rejected r H Hrej)).
      assert (Hgar : ~ garbled_length r)
        by (intros H; exact (garbled_not_rejected r H Hrej)).
      reply_sorted. }
  destruct (int_of_str str) as [n|] eqn:Hint.
  2:{ assert (Hgar : garbled_length r)
        by (split; [exact Hok | exists str; split; assumption]).
      assert (Hrej : ~ rejected r)
        by (intros H; exact (garbled_not_rejected r Hgar H)).
      assert (Hacc : ~ accepted r).
      { intros (_ & _ & n & (str' & Hcl' & Hint') & _). congruence. }
      reply_sorted. }
  destruct ((n =? 0) || negb (zip_content_type r)) eqn:Hchk.
  - assert (Hrej : rejected r).
    { apply orb_true_iff in Hchk as [Hn | Hzip].
      - apply Z.eqb_eq in Hn as ->. right; right; left.
        exists str. split; assumption.
      - apply negb_true_iff in Hzip. right; right; right.
        split; [exists n, str; split; assumption | exact Hzip]. }
    assert (Hacc : ~ accepted r)
      by (intros H; exact (accepted_not_rejected r H Hrej)).
    assert (Hgar : ~ garbled_length r)
      by (intros H; exact (garbled_not_rejected r H Hrej)).
    reply_sorted.
  - assert (Hacc : accepted r)
      by (exact (accepted_intro r str n Hok Hcl Hint Hchk)).
    assert (Hrej : ~ rejected r)
      by (intros H; exact (accepted_not_rejected r Hacc H)).
    assert (Hgar : ~ garbled_length r).
    { intros (_ & str' & Hcl' & Hint'). congruence. }
    reply_sorted.
Qed.

(** ** Calls that find no image, or no acceptance *)

(** When every captcha reply has a success status but the content of none
    of them decodes as an image (whatever the decoder makes of other bytes),
    a call uses up its budget: it returns [False] after exactly [max n 0]
    acquisitions, without one call of the solver or one download request,
    and leaves the files as they were. *)
Theorem download_state_without_images
    (env : environment) (c : call) (n : Z) (w : world) :
  (forall k id, ok (session_get env k (ReCaptcha id)) = true) ->
  (forall k id,
     Image_open env (content (session_get env k (ReCaptcha id))) = None) ->
  exists w' evs,
    download_state env c n w = Some (Returned PyFalse, w')
    /\ trace w' = trace w ++ evs
    /\ occurrences is_acquisition evs = Z.to_nat n
    /\ occurrences is_solve evs = 0%nat
    /\ occurrences is_fetch evs = 0%nat
    /\ fs w' = fs w.
Proof.
  intros Hcap Hnone.
  destruct (download_state_ledger env c n w)
    as (r & w' & evs & Hrun & F & L).
  pose proof (no_image_no_solve env evs Hnone (rl_solved _ _ _ _ _ _ L))
    as Hsolve.
  assert (Hfetch : occurrences is_fetch evs = 0%nat).
  { pose proof (rn_fetch _ _ _ _ _ _ F).
    pose proof (shaped_solves_are_solves evs). lia. }
  pose proof (rl_end _ _ _ _ _ _ L) as Hend.
  pose proof (rl_fetched _ _ _ _ _ _ L) as Hfetched.
  pose proof (rl_files _ _ _ _ _ _ L) as Hfiles.
  destruct Hend as [ | k cap _ | k id Hko | k cap _ ]; cbn in Hfetched;
    try lia.
  - exists w', evs. split; [exact Hrun|].
    split; [exact (rl_trace _ _ _ _ _ _ L)|].
    split; [exact (rn_false _ _ _ _ _ _ F eq_refl)|].
    split; [exact Hsolve|]. split; [exact Hfetch | apply Hfiles].
  - rewrite Hcap in Hko. discriminate.
Qed.

Lemma download_state_without_images_witness :
  Image_open Scenarios.no_image Examples.png = Some (Bitmap Examples.png)
  /\ exists w',
       download_state Scenarios.no_image Examples.sp_call 3 Examples.start
         = Some (Returned PyFalse, w')
       /\ occurrences is_acquisition (trace w') = 3%nat.
Proof.
  destruct (download_state_without_images
              Scenarios.no_image Examples.sp_call 3 Examples.start)
    as (w' & evs & Hrun & Htr & Hacq & _); [reflexivity | reflexivity |].
  split; [reflexivity|].
  exists w'. split; [exact Hrun|]. rewrite Htr. exact Hacq.
Defined.

(** When every captcha reply has a success status and every download reply
    fails one of the three checks, a call uses up its budget whatever the
    solver reads: it returns [False] after exactly [max n 0] attempts, raises
    nothing, and leaves the files as they were. *)
Theorem download_state_always_rejected
    (env : environment) (c : call) (n : Z) (w : world) :
  (forall k id, ok (session_get env k (ReCaptcha id)) = true) ->
  (forall k s t cap, rejected (session_get env k (DownloadBase s t cap))) ->
  exists w' evs,
    download_state env c n w = Some (Returned PyFalse, w')
    /\ trace w' = trace w ++ evs
    /\ occurrences is_acquisition evs = Z.to_nat n
    /\ occurrences is_sleep evs = Z.to_nat n
    /\ fs w' = fs w.
Proof.
  intros Hcap Hrej.
  destruct (download_state_ledger env c n w)
    as (r & w' & evs & Hrun & F & L).
  pose proof (rl_end _ _ _ _ _ _ L) as Hend.
  pose proof (rl_files _ _ _ _ _ _ L) as Hfiles.
  destruct Hend as [ | k cap Hacc | k id Hko | k cap Hgarbled ].
  - exists w', evs. split; [exact Hrun|].
    split; [exact (rl_trace _ _ _ _ _ _ L)|].
    pose proof (rn_false _ _ _ _ _ _ F eq_refl) as Hacq.
    split; [exact Hacq|].
    split; [rewrite (rn_sleep _ _ _ _ _ _ F); exact Hacq | apply Hfiles].
  - destruct (accepted_not_rejected _ Hacc (Hrej _ _ _ _)).
  - rewrite Hcap in Hko. discriminate.
  - destruct (garbled_not_rejected _ Hgarbled (Hrej _ _ _ _)).
Qed.

Lemma download_state_always_rejected_witness :
  exists w',
    download_state Examples.always_rejected Examples.sp_call 2 Examples.start
      = Some (Returned PyFalse, w')
    /\ fs w' = fs Examples.start.
Proof.
  destruct (download_state_always_rejected
              Examples.always_rejected Examples.sp_call 2 Examples.start)
    as (w' & evs & Hrun & _ & _ & _ & Hfs).
  - reflexivity.
  - intros k s t cap. right. right. left. exists "0".
    split; vm_compute; reflexivity.
  - exists w'. split; [exact Hrun | exact Hfs].
Defined.

(** ** Ids, sleeps and solver calls of a whole call *)

(** Every captcha request of a call carries an id between 0 and 999999:
    [int(random.random() * 1000000)] never reaches a million, rounding of the
    product included. *)
Theorem download_state_captcha_ids
    (env : environment) (c : call) (n : Z) (w : world) :
  exists r w' evs,
    download_state env c n w = Some (r, w')
    /\ trace w' = trace w ++ evs
    /\ Forall captcha_id_in_range evs.
Proof.
  destruct (download_state_ledger env c n w) as (r & w' & evs & Hrun & _ & L).
  exists r, w', evs. split; [exact Hrun|].
  split; [exact (rl_trace _ _ _ _ _ _ L) | exact (rl_ids _ _ _ _ _ _ L)].
Qed.

(** Every sleep of a call lasts at least 0 and less than 2 seconds, and all
    of them together at most [2 * max n 0] seconds. *)
Theorem download_state_total_sleep
    (env : environment) (c : call) (n : Z) (w : world) :
  exists r w' evs,
    download_state env c n w = Some (r, w')
    /\ trace w' = trace w ++ evs
    /\ Forall sleep_in_range evs
    /\ (0 <= total_sleep evs)%Q
    /\ (total_sleep evs <= inject_Z (2 * Z.max n 0))%Q.
Proof.
  destruct (download_state_ledger env c n w) as (r & w' & evs & Hrun & F & L).
  exists r, w', evs. split; [exact Hrun|].
  split; [exact (rl_trace _ _ _ _ _ _ L)|].
  split; [exact (rl_sleeps _ _ _ _ _ _ L)|].
  pose proof (rl_units _ _ _ _ _ _ L) as Hunits.
  pose proof (rn_bound _ _ _ _ _ _ F) as Hbound.
  assert (Hacq : Z.of_nat (occurrences is_acquisition evs) <= Z.max n 0)
    by lia.
  unfold total_sleep, Qle, inject_Z. cbn [Qnum Qden].
  change (Z.pos (2 ^ 53)) with (2 ^ 53).
  change (2 ^ 54 - 1) with (2 * 2 ^ 53 - 1) in Hunits.
  split; nia.
Qed.

(** ** The solver, attempt by attempt *)

Lemma disciplined_app env v l1 l2 :
  disciplined env v (l1 ++ l2)
  <-> disciplined env v l1 /\ disciplined env (foldl (read env) v l1) l2.
Proof.
  revert v. induction l1 as [|e l1 IH]; intros v; cbn [app disciplined foldl].
  - tauto.
  - rewrite IH. tauto.
Qed.

Lemma sent_after env v evs :
  sent (foldl (read env) v evs)
  = (sent v + occurrences is_network_call evs)%nat.
Proof.
  revert v. induction evs as [|e evs IH]; intros v; cbn [foldl].
  - rewrite occurrences_nil. lia.
  - rewrite IH, occurrences_cons.
    destruct e as [| |[]| | | | | |]; cbn [read sent is_network_call]; lia.
Qed.

(** The reader has nothing to say about the writing of the file. *)
Lemma disciplined_write_events env v path chunks l :
  disciplined env v (write_events path chunks ++ l) <-> disciplined env v l.
Proof.
  induction chunks as [|ch chunks IH]; [reflexivity|].
  cbn [write_events flat_map app disciplined allowed read].
  fold (write_events path chunks). rewrite IH. tauto.
Qed.

(** The reader does tell.  It refuses a download request that carries
    another text than the solver's, and a second call of the solver on one
    captcha. *)
Lemma disciplined_refuses_other_text env v id img text s t other :
  other <> text ->
  ~ disciplined env v
      [Get (ReCaptcha id); Solve img text; Get (DownloadBase s t other)].
Proof.
  intros Hne (_ & _ & (H & _) & _). cbn [read solution] in H. congruence.
Qed.

Lemma disciplined_refuses_second_call env v id img text img' text' :
  ~ disciplined env v
      [Get (ReCaptcha id); Solve img text; Solve img' text'].
Proof.
  intros (_ & _ & ((reply & H & _) & _) & _). cbn [read unsolved] in H.
  discriminate H.
Qed.

(** One pass through the loop body, read from a reader that has counted the
    requests so far. *)
Lemma iteration_discipline env c w :
  exists evs,
    trace (iteration env c w).2 = trace w ++ evs
    /\ requests_sent (iteration env c w).2
       = (requests_sent w + occurrences is_network_call evs)%nat
    /\ forall v, sent v = requests_sent w -> disciplined env v evs.
Proof.
  iteration_cases env c w.
  all: eexists; split; [rewrite <- ?app_assoc; reflexivity|].
  all: split; [census|].
  all: intros v Hv;
    cbn [app disciplined allowed read sent unsolved solution];
    rewrite ?disciplined_write_events;
    cbn [app disciplined allowed read sent unsolved solution];
    repeat match goal with |- _ /\ _ => split end;
    first [ exact I
          | reflexivity
          | assumption
          | eexists; split; [reflexivity | rewrite Hv; eassumption] ].
Qed.

(** The loop, read from such a reader. *)
Lemma while_tries_discipline env fuel : forall c w v,
  (Z.to_nat (tries w) <= fuel)%nat ->
  sent v = requests_sent w ->
  exists r w' evs,
    while_tries env fuel c w = Some (r, w')
    /\ trace w' = trace w ++ evs
    /\ disciplined env v evs.
Proof.
  induction fuel as [|fuel IH]; intros c w v Hfuel Hv.
  - exists (Returned PyFalse), w, []. split.
    + apply while_tries_no_budget. lia.
    + split; [rewrite app_nil_r; reflexivity | exact I].
  - cbn [while_tries]. destruct (Z.ltb_spec 0 (tries w)) as [Hpos|Hle].
    2:{ exists (Returned PyFalse), w, []. split; [reflexivity|].
        split; [rewrite app_nil_r; reflexivity | exact I]. }
    destruct (iteration_facts env c w) as [evs0 F1].
    destruct (iteration_discipline env c w) as (evs1 & Htr1 & Hsent1 & D1).
    pose proof (at_tries _ _ _ _ _ F1) as Htries. clear F1 evs0.
    destruct (iteration env c w) as [r1 w1]. cbn [fst snd] in *.
    destruct r1 as [[p|]|e].
    + exists (Returned p), w1, evs1. split; [reflexivity|].
      split; [exact Htr1 | exact (D1 v Hv)].
    + destruct (IH c w1 (foldl (read env) v evs1)) as (r & w' & evs2 & Hrun & Htr2 & D2).
      * lia.
      * rewrite sent_after, Hv, Hsent1. reflexivity.
      * exists r, w', (evs1 ++ evs2). split; [exact Hrun|].
        split; [rewrite Htr2, Htr1, app_assoc; reflexivity|].
        apply disciplined_app. split; [exact (D1 v Hv) | exact D2].
    + exists (Raised e), w1, evs1. split; [reflexivity|].
      split; [exact Htr1 | exact (D1 v Hv)].
Qed.

(** The solver, attempt by attempt.  In one pass through the loop body there
    is one captcha request and at most one call of the solver.  Over a whole
    call, every call of the solver is made on the image decoded from the
    content of the reply to the captcha request of the same attempt, its
    text is what the driver returned for that image, and every download
    request and every print that quotes a captcha carries the text of the
    solver call of its own attempt; a download request is sent for a text of
    length 5 only. *)
Theorem download_state_solver_calls
    (env : environment) (c : call) (n : Z) (w : world) :
  (exists evs,
     trace (iteration env c w).2 = trace w ++ evs
     /\ occurrences is_acquisition evs = 1%nat
     /\ (occurrences is_solve evs <= 1)%nat
     /\ forall v, sent v = requests_sent w -> disciplined env v evs)
  /\ exists r w' evs,
       download_state env c n w = Some (r, w')
       /\ trace w' = trace w ++ evs
       /\ disciplined env (Reader (requests_sent w) None None) evs
       /\ Forall (solved_by env) evs
       /\ (occurrences is_solve evs <= occurrences is_acquisition evs)%nat.
Proof.
  split.
  - destruct (iteration_facts env c w) as [evs F].
    destruct (iteration_ledger env c w) as [evs1 L].
    destruct (iteration_discipline env c w) as (evs2 & Htr & _ & D).
    assert (evs1 = evs) as ->.
    { apply (app_inv_head (trace w)).
      rewrite <- (al_trace _ _ _ _ _ _ L), <- (at_trace _ _ _ _ _ F).
      reflexivity. }
    assert (evs2 = evs) as ->.
    { apply (app_inv_head (trace w)).
      rewrite <- Htr, <- (at_trace _ _ _ _ _ F). reflexivity. }
    exists evs. split; [exact Htr|].
    split; [exact (at_acquisition _ _ _ _ _ F)|].
    split; [exact (al_solves _ _ _ _ _ _ L) | exact D].
  - destruct (download_state_ledger env c n w)
      as (r & w' & evs & Hrun & _ & L).
    exists r, w', evs. split; [exact Hrun|].
    split; [exact (rl_trace _ _ _ _ _ _ L)|].
    split; [|split; [exact (rl_solved _ _ _ _ _ _ L)
                    | exact (rl_solves _ _ _ _ _ _ L)]].
    unfold download_state in Hrun. revert Hrun. run. intros Hrun.
    destruct (while_tries_discipline env (Z.to_nat n) c
                (World (fs w) (requests_sent w) (draws_made w) n
                       (trace w ++ [Mkdir (folder c)]))
                (Reader (requests_sent w) None None))
      as (r2 & w2 & evs2 & Hrun2 & Htr2 & D); [reflexivity | reflexivity |].
    rewrite Hrun in Hrun2. injection Hrun2 as <- <-.
    cbn [trace] in Htr2.
    assert (evs = Mkdir (folder c) :: evs2) as ->.
    { apply (app_inv_head (trace w)).
      rewrite <- (rl_trace _ _ _ _ _ _ L), Htr2, <- app_assoc. reflexivity. }
    cbn [disciplined allowed read]. split; [exact I | exact D].
Qed.

(** ** A first attempt that works *)

Lemma iteration_success env c w im :
  ok (captcha_response env w) = true ->
  Image_open env (content (captcha_response env w)) = Some im ->
  String.length (get_captcha env im) = 5%nat ->
  accepted (download_reply env c (S (requests_sent w))
              (get_captcha env im)) ->
  exists w' evs,
    iteration env c w = (Returned (Some (PyPath (artifact env c))), w')
    /\ trace w' = trace w ++ evs
    /\ tries w' = tries w - 1
    /\ fs w' = <[artifact env c :=
                   concat (iter_content
                             (download_reply env c (S (requests_sent w))
                                (get_captcha env im))
                             (chunk_size c))]> (fs w)
    /\ occurrences is_acquisition evs = 1%nat
    /\ occurrences is_fetch evs = 1%nat
    /\ occurrences is_sleep evs = 1%nat.
Proof.
  intros Hcap Hopen Hfive (Hok & Hzip & n & (s & Hhdr & Hnum) & Hn).
  apply Nat.eqb_eq in Hfive. apply Z.eqb_neq in Hn.
  unfold download_reply, artifact in *.
  unfold iteration, try_suite. run.
  rewrite _download_captcha_eq. cbv zeta. rewrite Hcap, Hopen. run.
  rewrite Hfive.
  destruct (debug c); run; rewrite _download_shapefile_eq; cbv zeta;
    unfold download_response, zip_content_type in *;
    cbn [fs requests_sent draws_made tries trace];
    rewrite Hok, Hhdr, Hnum, Hzip, Hn; cbn [orb negb]; run;
    rewrite finally_suite_eq; cbv zeta;
    (eexists _, _; split; [reflexivity|]);
    cbn [fs requests_sent draws_made tries trace];
    (split; [rewrite <- ?app_assoc; reflexivity|]);
    repeat split; census.
Qed.

(** When, at the first attempt of a call with a positive budget, the captcha
    is served and decodes, the solver reads five characters and the download
    reply passes the three checks, the call returns the artifact path after
    that one attempt: one acquisition, one download request, one sleep, one
    unit of budget spent, and the payload of that reply in the file. *)
Theorem download_state_first_attempt_success
    (env : environment) (c : call) (n : Z) (w : world) (img : image) :
  0 < n ->
  ok (captcha_response env w) = true ->
  Image_open env (content (captcha_response env w)) = Some img ->
  String.length (get_captcha env img) = 5%nat ->
  accepted (download_reply env c (S (requests_sent w))
              (get_captcha env img)) ->
  exists w' evs,
    download_state env c n w
      = Some (Returned (PyPath (artifact env c)), w')
    /\ trace w' = trace w ++ evs
    /\ tries w' = n - 1
    /\ fs w' = <[artifact env c :=
                   concat (iter_content
                             (download_reply env c (S (requests_sent w))
                                (get_captcha env img))
                             (chunk_size c))]> (fs w)
    /\ occurrences is_acquisition evs = 1%nat
    /\ occurrences is_fetch evs = 1%nat
    /\ occurrences is_sleep evs = 1%nat.
Proof.
  intros Hn Hcap Hopen Hfive Hacc.
  destruct (iteration_success env c
              (World (fs w) (requests_sent w) (draws_made w) n
                     (trace w ++ [Mkdir (folder c)]))
              img Hcap Hopen Hfive Hacc)
    as (w' & evs & Hit & Htr & Htries & Hfs & Hacq & Hfetch & Hsleep).
  cbn [fs requests_sent tries trace] in *.
  exists w', (Mkdir (folder c) :: evs).
  split.
  - unfold download_state. run.
    destruct (Z.to_nat n) as [|fuel] eqn:Hfuel; [lia|].
    cbn [while_tries tries].
    destruct (Z.ltb_spec 0 n); [|lia]. rewrite Hit. reflexivity.
  - split; [rewrite Htr, <- app_assoc; reflexivity|].
    repeat split; try assumption; rewrite occurrences_cons; assumption.
Qed.

Lemma download_state_first_attempt_witness :
  exists w',
    download_state Examples.fair_weather Examples.sp_call 3 Examples.start
      = Some (Returned (PyPath "temp/SHAPE_SP_AREA_IMOVEL.zip"), w')
    /\ tries w' = 2
    /\ fs w' !! "temp/SHAPE_SP_AREA_IMOVEL.zip"
       = Some [Byte.x50; Byte.x4b; Byte.x03; Byte.x04].
Proof.
  destruct (download_state_first_attempt_success
              Examples.fair_weather Examples.sp_call 3 Examples.start
              (Bitmap Examples.png))
    as (w' & evs & Hrun & _ & Htries & Hfs & _).
  - lia.
  - vm_compute; reflexivity.
  - vm_compute; reflexivity.
  - vm_compute; reflexivity.
  - split; [vm_compute; reflexivity|]. split; [vm_compute; reflexivity|].
    exists 4. split; [|lia]. exists "4". split; vm_compute; reflexivity.
  - exists w'. split; [exact Hrun|]. split; [exact Htries|].
    rewrite Hfs. vm_compute. reflexivity.
Defined.

(** ** What [debug] changes *)

Lemma quiet_cons e l :
  quiet (e :: l) = if is_print e then quiet l else e :: quiet l.
Proof. unfold quiet. cbn [List.filter]. destruct (is_print e); reflexivity. Qed.

(** Prove [quiet e2 = e1] for traces built by appending. *)
Ltac hush :=
  rewrite ?quiet_app, ?quiet_cons, ?quiet_write_events;
  cbn [is_print quiet List.filter]; reflexivity.

(** One pass, with [debug] off and with [debug] set to [b], from two worlds
    that differ in their traces at most. *)
Lemma iteration_debug env c b w1 w2 :
  same_core w1 w2 ->
  exists r w1' w2' e1 e2,
    iteration env (with_debug false c) w1 = (r, w1')
    /\ iteration env (with_debug b c) w2 = (r, w2')
    /\ same_core w1' w2'
    /\ trace w1' = trace w1 ++ e1
    /\ trace w2' = trace w2 ++ e2
    /\ quiet e2 = e1.
Proof.
  destruct w1 as [f1 r1 d1 t1 tr1], w2 as [f2 r2 d2 t2 tr2].
  unfold same_core. cbn [fs requests_sent draws_made tries].
  intros (<- & <- & <- & <-).
  unfold iteration, try_suite. run.
  rewrite !_download_captcha_eq. cbv zeta.
  unfold captcha_response, captcha_url.
  cbn [fs requests_sent draws_made tries trace].
  destruct (ok (session_get env r1 _)).
  2:{ cbn [except_clause]. rewrite !finally_suite_eq. cbv zeta.
      cbn [fs requests_sent draws_made tries trace].
      eexists _, _, _, _, _. split; [reflexivity|]. split; [reflexivity|].
      split; [repeat split|].
      split; [rewrite <- ?app_assoc; reflexivity|].
      split; [rewrite <- ?app_assoc; reflexivity | hush]. }
  destruct (Image_open env _) as [img|].
  2:{ cbn [except_clause debug with_debug]. run. destruct b; run;
      rewrite !finally_suite_eq; cbv zeta;
      cbn [fs requests_sent draws_made tries trace];
      (eexists _, _, _, _, _; split; [reflexivity|]; split; [reflexivity|];
       split; [repeat split|];
       split; [rewrite <- ?app_assoc; reflexivity|];
       split; [rewrite <- ?app_assoc; reflexivity | hush]). }
  destruct (String.length (get_captcha env img) =? 5)%nat.
  2:{ cbn [debug with_debug]. destruct b; run;
      rewrite !finally_suite_eq; cbv zeta;
      cbn [fs requests_sent draws_made tries trace];
      (eexists _, _, _, _, _; split; [reflexivity|]; split; [reflexivity|];
       split; [repeat split|];
       split; [rewrite <- ?app_assoc; reflexivity|];
       split; [rewrite <- ?app_assoc; reflexivity | hush]). }
  cbn [debug with_debug state type folder chunk_size].
  destruct b; run; rewrite !_download_shapefile_eq; cbv zeta;
    unfold download_response;
    cbn [fs requests_sent draws_made tries trace];
    (destruct (ok (session_get env (S r1) _));
     [ destruct (headers_get _ "Content-Length") as [str|];
       [ destruct (int_of_str str) as [len|];
         [ destruct ((len =? 0) || _) | ] | ] | ]);
    cbn [except_clause debug with_debug]; run;
    rewrite !finally_suite_eq; cbv zeta;
    cbn [fs requests_sent draws_made tries trace];
    (eexists _, _, _, _, _; split; [reflexivity|]; split; [reflexivity|];
     split; [repeat split|];
     split; [rewrite <- ?app_assoc; reflexivity|];
     split; [rewrite <- ?app_assoc; reflexivity | hush]).
Qed.

Lemma while_tries_debug env c b fuel : forall w1 w2,
  same_core w1 w2 ->
  (Z.to_nat (tries w1) <= fuel)%nat ->
  exists r w1' w2' e1 e2,
    while_tries env fuel (with_debug false c) w1 = Some (r, w1')
    /\ while_tries env fuel (with_debug b c) w2 = Some (r, w2')
    /\ same_core w1' w2'
    /\ trace w1' = trace w1 ++ e1
    /\ trace w2' = trace w2 ++ e2
    /\ quiet e2 = e1.
Proof.
  assert (Hstop : forall fuel w1 w2,
             same_core w1 w2 -> tries w1 <= 0 ->
             exists r w1' w2' e1 e2,
               while_tries env fuel (with_debug false c) w1 = Some (r, w1')
               /\ while_tries env fuel (with_debug b c) w2 = Some (r, w2')
               /\ same_core w1' w2'
               /\ trace w1' = trace w1 ++ e1
               /\ trace w2' = trace w2 ++ e2
               /\ quiet e2 = e1).
  { intros fuel' w1 w2 Hcore Hle.
    exists (Returned PyFalse), w1, w2, [], [].
    split; [apply while_tries_no_budget; exact Hle|].
    split; [apply while_tries_no_budget;
            destruct Hcore as (_ & _ & _ & <-); exact Hle|].
    split; [exact Hcore|]. rewrite !app_nil_r. repeat split. }
  induction fuel as [|fuel IH]; intros w1 w2 Hcore Hfuel.
  - apply Hstop; [exact Hcore | lia].
  - destruct (Z.le_gt_cases (tries w1) 0) as [Hle|Hpos];
      [apply Hstop; assumption|].
    assert (Hpos2 : 0 < tries w2)
      by (destruct Hcore as (_ & _ & _ & <-); lia).
    destruct (iteration_debug env c b w1 w2 Hcore)
      as (r & v1 & v2 & e1 & e2 & Hit1 & Hit2 & Hcore' & Htr1 & Htr2 & Hq).
    destruct (iteration_facts env (with_debug false c) w1) as [evs F].
    rewrite Hit1 in F. cbn [fst snd] in F.
    pose proof (at_tries _ _ _ _ _ F) as Htries.
    cbn [while_tries].
    destruct (Z.ltb_spec 0 (tries w1)); [|lia].
    destruct (Z.ltb_spec 0 (tries w2)); [|lia].
    rewrite Hit1, Hit2.
    destruct r as [[v|]|e].
    + exists (Returned v), v1, v2, e1, e2.
      split; [reflexivity|]. split; [reflexivity|].
      split; [exact Hcore'|]. split; [exact Htr1|].
      split; [exact Htr2 | exact Hq].
    + destruct (IH v1 v2 Hcore' ltac:(lia))
        as (r & u1 & u2 & g1 & g2 & Hl1 & Hl2 & Hc & Hu1 & Hu2 & Hg).
      exists r, u1, u2, (e1 ++ g1), (e2 ++ g2).
      split; [exact Hl1|]. split; [exact Hl2|]. split; [exact Hc|].
      split; [rewrite Hu1, Htr1, app_assoc; reflexivity|].
      split; [rewrite Hu2, Htr2, app_assoc; reflexivity|].
      rewrite quiet_app, Hq, Hg. reflexivity.
    + exists (Raised e), v1, v2, e1, e2.
      split; [reflexivity|]. split; [reflexivity|].
      split; [exact Hcore'|]. split; [exact Htr1|].
      split; [exact Htr2 | exact Hq].
Qed.

(** The [debug] argument changes nothing but what is printed: with [debug]
    off and with [debug] on, a call gives the same result, the same files and
    the same budget left, and the effects of the call without [debug] are
    those of the call with [debug] less the [print]s; in particular a call
    without [debug] prints nothing. *)
Theorem download_state_debug_only_prints
    (env : environment) (c : call) (b : bool) (n : Z) (w : world) :
  exists r w1 w2 e1 e2,
    download_state env (with_debug false c) n w = Some (r, w1)
    /\ download_state env (with_debug b c) n w = Some (r, w2)
    /\ fs w1 = fs w2
    /\ tries w1 = tries w2
    /\ trace w1 = trace w ++ e1
    /\ trace w2 = trace w ++ e2
    /\ quiet e2 = e1
    /\ occurrences is_print e1 = 0%nat.
Proof.
  unfold download_state. run. cbn [folder with_debug].
  destruct (while_tries_debug env c b (Z.to_nat n)
              (World (fs w) (requests_sent w) (draws_made w) n
                     (trace w ++ [Mkdir (folder c)]))
              (World (fs w) (requests_sent w) (draws_made w) n
                     (trace w ++ [Mkdir (folder c)])))
    as (r & w1 & w2 & e1 & e2 & H1 & H2 & Hcore & Htr1 & Htr2 & Hq);
    [repeat split | reflexivity |].
  cbn [trace] in Htr1, Htr2.
  exists r, w1, w2, (Mkdir (folder c) :: e1), (Mkdir (folder c) :: e2).
  split; [exact H1|]. split; [exact H2|].
  destruct Hcore as (Hfs & _ & _ & Htries).
  split; [exact Hfs|]. split; [exact Htries|].
  split; [rewrite Htr1, <- app_assoc; reflexivity|].
  split; [rewrite Htr2, <- app_assoc; reflexivity|].
  split; [rewrite quiet_cons, Hq; reflexivity|].
  rewrite occurrences_cons. cbn [is_print Nat.add]. rewrite <- Hq.
  unfold occurrences, quiet. clear.
  induction e2 as [|e l IH]; [reflexivity|].
  cbn [List.filter]. destruct (is_print e) eqn:He; cbn [negb]; [exact IH|].
  cbn [List.filter]. rewrite He. exact IH.
Qed.

(** ** The messages of the exception classes *)

Lemma list_ascii_of_string_app s t :
  list_ascii_of_string (s +:+ t)
  = list_ascii_of_string s ++ list_ascii_of_string t.
Proof.
  induction s as [|a s IH]; [reflexivity|].
  cbn [String.app append list_ascii_of_string app]. rewrite <- IH.
  reflexivity.
Qed.

Lemma string_app_inv_tail s1 s2 t : s1 +:+ t = s2 +:+ t -> s1 = s2.
Proof.
  intros H. apply (f_equal list_ascii_of_string) in H.
  rewrite !list_ascii_of_string_app in H. apply app_inv_tail in H.
  rewrite <- (string_of_list_ascii_of_string s1),
          <- (string_of_list_ascii_of_string s2), H.
  reflexivity.
Qed.

(** The message tells the exception: two exceptions of the package with the
    same message are of the same class and carry the same email, URL or
    state code. *)
Theorem exception_message_tells_the_exception
    (e1 e2 : Exceptions.exception) :
  Exceptions.message e1 = Exceptions.message e2 -> e1 = e2.
Proof.
  destruct e1 as [a|a|a| | |], e2 as [b|b|b| | |];
    cbn [Exceptions.message]; intros H;
    try reflexivity; try discriminate H.
  - injection H as H.
    pose proof (string_app_inv_tail a b " not valid!" H). congruence.
  - injection H as H.
    pose proof (string_app_inv_tail a b "!" H). congruence.
  - injection H as H.
    pose proof (string_app_inv_tail a b " not valid!" H). congruence.
Qed.

Lemma exception_message_witness :
  Exceptions.message (Exceptions.StateCodeNotValidException "XX")
    = "State code XX not valid!"
  /\ Exceptions.StateCodeNotValidException "XX"
     = Exceptions.StateCodeNotValidException "XX".
Proof.
  split; [reflexivity|].
  apply exception_message_tells_the_exception. reflexivity.
Defined.
